(** * VideoDetectX: shake detection and face/object detection (src/main.py)

    A shallow embedding of [detect_camera_shake], [detect_faces_objects] and
    [main].  Python floats are IEEE-754 binary64 values ([spec_float] of the
    standard library, with its executable comparison and division); the
    video capture, the file system and the console are an explicit world
    that every operation threads through, together with a chronological log
    of the side effects performed. *)

From Stdlib Require Import ZArith List Bool Lia SpecFloat.
From stdpp Require Import base tactics option list sorting gmap strings pretty.

Local Open Scope string_scope.
Local Open Scope list_scope.
Local Open Scope Z_scope.

(** ** Python floats *)

Module PyFloat.

Definition float : Type := spec_float.

Definition prec : Z := 53.
Definition emax : Z := 1024.

Definition zero : float := S754_zero false.

(** [x == 0.0] in C: true for both signed zeros. *)
Definition is_zero (x : float) : bool :=
  match x with
  | S754_zero _ => true
  | _ => false
  end.

(** [a < b] and [a > b]; false as soon as one side is a NaN. *)
Definition lt (a b : float) : bool := SFltb a b.
Definition gt (a b : float) : bool := SFltb b a.

(** Conversion of a Python int, rounding to nearest even.  (CPython raises
    OverflowError from 2^1024 on, which no frame counter reaches.) *)
Definition of_int (n : Z) : float := binary_normalize prec emax n 0 false.

Definition div (x y : float) : float := SFdiv prec emax x y.

(** Single precision ([np.float32]): 24 significant bits, exponents up to
    128. *)
Definition prec32 : Z := 24.
Definition emax32 : Z := 128.

(** The cast of a Python float to [np.float32], rounding to nearest even
    (overflow gives an infinity, underflow a subnormal or a zero), with
    the result written back as the double that has the same value.
    Zeros, infinities and NaN are kept. *)
Definition to_float32 (x : float) : float :=
  match x with
  | S754_finite s m e =>
      match binary_round prec32 emax32 s m e with
      | S754_finite s' m' e' => binary_round prec emax s' m' e'
      | y => y
      end
  | _ => x
  end.

End PyFloat.

Abbreviation float := PyFloat.float.

(** ** Exceptions and outcomes *)

Inductive exn : Type :=
| ZeroDivisionError
| OSError
| SystemExit (code : Z).

Inductive outcome (A : Type) : Type :=
| Returned (a : A)
| Raised (e : exn).
Arguments Returned {A} a.
Arguments Raised {A} e.

(** [int / float]: the divisor is tested against zero before dividing. *)
Definition truediv (n : Z) (x : float) : outcome float :=
  if PyFloat.is_zero x then Raised ZeroDivisionError
  else Returned (PyFloat.div (PyFloat.of_int n) x).

(** ** JSON documents (the argument of [json.dump]) *)

#[local] Set Warnings "-register-all".

Inductive json : Type :=
| JInt (n : Z)
| JFloat (x : float)
| JString (s : string)
| JList (items : list json)
| JDict (fields : list (string * json)).

Fixpoint dict_get (key : string) (fields : list (string * json)) : option json :=
  match fields with
  | [] => None
  | (k, v) :: rest => if String.eqb k key then Some v else dict_get key rest
  end.

Definition json_get (key : string) (doc : json) : option json :=
  match doc with
  | JDict fields => dict_get key fields
  | _ => None
  end.

(** ** Event records *)

Module ShakeEvent.
Record t : Type := mk { frame : Z; timestamp : float; magnitude : float }.

Definition to_json (e : t) : json :=
  JDict [("frame", JInt (frame e));
         ("timestamp", JFloat (timestamp e));
         ("magnitude", JFloat (magnitude e))].
End ShakeEvent.

Module Box.
Record t : Type := mk { x : Z; y : Z; w : Z; h : Z }.

Definition to_json (b : t) : json :=
  JList [JInt (x b); JInt (y b); JInt (w b); JInt (h b)].
End Box.

Module DetectionEvent.
Record t : Type :=
  mk { frame : Z; timestamp : float; count : Z; locations : list Box.t }.

Definition to_json (e : t) : json :=
  JDict [("frame", JInt (frame e));
         ("timestamp", JFloat (timestamp e));
         ("count", JInt (count e));
         ("locations", JList (map Box.to_json (locations e)))].
End DetectionEvent.

(** ** Side effects *)

Inductive action : Type :=
| Print (msg : string)
| CapOpen (path : string) (ok : bool)
| CapRead (ok : bool)
| CapRelease
| FileWrite (path : string) (doc : json)
| FileWriteFailed (path : string).

Definition is_write_attempt (a : action) : bool :=
  match a with
  | FileWrite _ _ | FileWriteFailed _ => true
  | _ => false
  end.

Definition is_read (a : action) : bool :=
  match a with
  | CapRead _ => true
  | _ => false
  end.

Definition is_release (a : action) : bool :=
  match a with
  | CapRelease => true
  | _ => false
  end.

(** ** The external collaborators

    Decoded frames, grayscale conversion ([cv2.cvtColor]), the mean
    optical-flow magnitude of two grayscale frames
    ([calcOpticalFlowFarneback], [cartToPolar] and [np.mean] in a row), the
    cascade classifier loaded from a path, [os.path.splitext] and the
    directory [cv2.data.haarcascades]. *)

Class Backend : Type :=
  { Frame : Type;
    Gray : Type;
    cvtColor : Frame -> Gray;
    flow_mean : Gray -> Gray -> float;
    detectMultiScale : string -> Gray -> list Box.t;
    splitext_root : string -> string;
    haarcascades : string }.

Section Pipeline.

Context `{Backend}.

(** What a path holds: a container that may or may not decode, or a JSON
    document written by an earlier run. *)
Record Video : Type :=
  { decodable : bool; video_fps : float; video_frames : list Frame }.

Inductive file : Type :=
| VideoFile (v : Video)
| JsonFile (doc : json).

(** [locked] holds the paths that cannot be opened for writing; [now] is
    the wall clock already formatted by [strftime]. *)
Record world : Type :=
  { fs : gmap string file;
    locked : gset string;
    now : string;
    log : list action }.

Definition M (A : Type) : Type := world -> outcome A * world.

Definition ret {A} (a : A) : M A := fun w => (Returned a, w).
Definition raise {A} (e : exn) : M A := fun w => (Raised e, w).
Definition bind {A B} (m : M A) (k : A -> M B) : M B :=
  fun w =>
    match m w with
    | (Returned a, w') => k a w'
    | (Raised e, w') => (Raised e, w')
    end.
Definition lift {A} (o : outcome A) : M A := fun w => (o, w).

(** The same store with [l] appended to the log of effects. *)
Definition add_log (w : world) (l : list action) : world :=
  {| fs := fs w; locked := locked w; now := now w; log := log w ++ l |}.

Definition tell (a : action) : M unit :=
  fun w => (Returned tt, add_log w [a]).

Definition print (msg : string) : M unit := tell (Print msg).

Notation "x <- m ;; k" := (bind m (fun x => k))
  (at level 100, m at next level, right associativity).
Notation "m ;;; k" := (bind m (fun _ => k))
  (at level 100, right associativity).

(** *** The video capture *)

Record Capture : Type :=
  { opened : bool; cap_fps : float; pending : list Frame }.

Definition VideoCapture (video_path : string) : M Capture :=
  fun w =>
    let cap :=
      match fs w !! video_path with
      | Some (VideoFile v) =>
          {| opened := decodable v;
             cap_fps := video_fps v;
             pending := video_frames v |}
      | _ => {| opened := false; cap_fps := PyFloat.zero; pending := [] |}
      end in
    (tell (CapOpen video_path (opened cap)) ;;; ret cap) w.

(** [cap.read()]: the next frame, if there is one. *)
Definition read (cap : Capture) : M (option Frame * Capture) :=
  match pending cap with
  | frame :: rest =>
      tell (CapRead true) ;;;
      ret (Some frame,
           {| opened := opened cap; cap_fps := cap_fps cap; pending := rest |})
  | [] => tell (CapRead false) ;;; ret (None, cap)
  end.

Definition release (cap : Capture) : M unit := tell CapRelease.

Definition write_file (w : world) (path : string) (doc : json) : world :=
  {| fs := <[path := JsonFile doc]> (fs w); locked := locked w;
     now := now w; log := log w |}.

(** [with open(output_path, 'w') as f: json.dump(doc, f, indent=2)]:
    opening fails on a locked path, otherwise the file holds [doc]. *)
Definition dump (output_path : string) (doc : json) : M unit :=
  fun w =>
    if decide (output_path ∈ locked w) then
      (Raised OSError, add_log w [FileWriteFailed output_path])
    else
      (Returned tt,
       add_log (write_file w output_path doc) [FileWrite output_path doc]).

(** *** detect_camera_shake *)

(** The [while True] loop of lines 42-70, by recursion on the frames the
    capture still holds.  [threshold] is the threshold as the comparison
    of line 60 sees it ([seen_threshold] below). *)
Fixpoint shake_loop (fps threshold : float) (pending : list Frame)
    (prev_gray : Gray) (frame_count : Z)
    (shake_timestamps : list ShakeEvent.t) : M (list ShakeEvent.t) :=
  match pending with
  | [] => tell (CapRead false) ;;; ret shake_timestamps
  | frame :: rest =>
      tell (CapRead true) ;;;
      let gray := cvtColor frame in
      let mean_magnitude := flow_mean prev_gray gray in
      if PyFloat.gt mean_magnitude threshold then
        timestamp <- lift (truediv frame_count fps) ;;
        shake_loop fps threshold rest gray (frame_count + 1)
          (shake_timestamps ++
             [ShakeEvent.mk frame_count timestamp mean_magnitude])
      else
        shake_loop fps threshold rest gray (frame_count + 1) shake_timestamps
  end.

Definition shake_report (video_path : string)
    (shake_timestamps : list ShakeEvent.t) : json :=
  JDict [("source_video", JString video_path);
         ("shake_events", JList (map ShakeEvent.to_json shake_timestamps));
         ("total_events", JInt (Z.of_nat (length shake_timestamps)))].

Definition detect_camera_shake (video_path output_path : string)
    (threshold : float) : M (list ShakeEvent.t) :=
  cap <- VideoCapture video_path ;;
  if negb (opened cap) then
    print ("Error: Could not open video " +:+ video_path) ;;;
    ret []
  else
    let fps := cap_fps cap in
    r <- read cap ;;
    match r with
    | (None, _) =>
        print "Error: Could not read first frame" ;;;
        ret []
    | (Some prev_frame, cap) =>
        let prev_gray := cvtColor prev_frame in
        shake_timestamps <-
          shake_loop fps threshold (pending cap) prev_gray 1 [] ;;
        release cap ;;;
        dump output_path (shake_report video_path shake_timestamps) ;;;
        ret shake_timestamps
    end.

(** *** The comparison of line 60 under NumPy's promotion rules

    [mean_magnitude] is the [np.float32] scalar that [np.mean] returns for
    the single-precision magnitudes of [cv2.cartToPolar], and [threshold]
    is a Python float.  [flow_mean] gives that mean as the double of the
    same value, and [shake_loop] compares it with the threshold it is
    handed as doubles.  Which threshold that is depends on the NumPy the
    program runs on: NumPy 1.x promotes the mean to double precision and
    compares it with the caller's threshold; from NumPy 2 on (NEP 50) the
    Python float is cast to [np.float32] first and the comparison is made
    in single precision.  The threshold is used nowhere else in the
    function, so a run is the function above on the threshold as the
    comparison sees it. *)
Inductive numpy : Type :=
| NumPy1
| NumPy2.

Definition seen_threshold (np : numpy) (threshold : float) : float :=
  match np with
  | NumPy1 => threshold
  | NumPy2 => PyFloat.to_float32 threshold
  end.

Definition detect_camera_shake_on (np : numpy)
    (video_path output_path : string) (threshold : float)
    : M (list ShakeEvent.t) :=
  detect_camera_shake video_path output_path (seen_threshold np threshold).

(** *** detect_faces_objects *)

Definition len {A} (l : list A) : Z := Z.of_nat (length l).

(** The [while True] loop of lines 121-141. *)
Fixpoint detect_loop (fps : float) (cascade_path : string)
    (pending : list Frame) (frame_count : Z)
    (detection_results : list DetectionEvent.t)
    : M (list DetectionEvent.t) :=
  match pending with
  | [] => tell (CapRead false) ;;; ret detection_results
  | frame :: rest =>
      tell (CapRead true) ;;;
      let gray := cvtColor frame in
      let detections := detectMultiScale cascade_path gray in
      if 0 <? len detections then
        timestamp <- lift (truediv frame_count fps) ;;
        detect_loop fps cascade_path rest (frame_count + 1)
          (detection_results ++
             [DetectionEvent.mk frame_count timestamp (len detections)
                (if 0 <? len detections then detections else [])])
      else
        detect_loop fps cascade_path rest (frame_count + 1) detection_results
  end.

Definition detection_report (video_path cascade_type : string)
    (detection_results : list DetectionEvent.t) : json :=
  JDict [("source_video", JString video_path);
         ("detection_type", JString cascade_type);
         ("detections", JList (map DetectionEvent.to_json detection_results));
         ("total_frames_with_detections", JInt (len detection_results))].

(** Lines 106-112: the cascade file of a profile, if the profile is known. *)
Definition cascade_path_of (cascade_type : string) : option string :=
  if String.eqb cascade_type "face" then
    Some (haarcascades +:+ "haarcascade_frontalface_default.xml")
  else if String.eqb cascade_type "object" then
    Some (haarcascades +:+ "haarcascade_fullbody.xml")
  else None.

Definition detect_faces_objects (video_path output_path cascade_type : string)
    : M (list DetectionEvent.t) :=
  cap <- VideoCapture video_path ;;
  if negb (opened cap) then
    print ("Error: Could not open video " +:+ video_path) ;;;
    ret []
  else
    let fps := cap_fps cap in
    match cascade_path_of cascade_type with
    | None =>
        print ("Error: Unknown cascade type '" +:+ cascade_type +:+ "'") ;;;
        ret []
    | Some cascade_path =>
        detection_results <-
          detect_loop fps cascade_path (pending cap) 0 [] ;;
        release cap ;;;
        dump output_path
          (detection_report video_path cascade_type detection_results) ;;;
        ret detection_results
    end.

(** *** main *)

Inductive Mode : Type := shake | face | object.

Definition mode_name (m : Mode) : string :=
  match m with
  | shake => "shake"
  | face => "face"
  | object => "object"
  end.

(** The namespace [parse_args] returns; [--mode] is restricted to its three
    choices by the parser. *)
Record Args : Type :=
  { video : string; mode : Mode; output : option string; threshold : float }.

Definition isfile (path : string) : M bool :=
  fun w => (Returned (bool_decide (is_Some (fs w !! path))), w).

Definition strftime_now : M string := fun w => (Returned (now w), w).

(** Lines 174-176: an absent or empty [--output] gets the derived name. *)
Definition output_of (args : Args) : M string :=
  match output args with
  | Some o =>
      if String.eqb o "" then
        timestamp <- strftime_now ;;
        ret (splitext_root (video args) +:+ "_" +:+ mode_name (mode args)
               +:+ "_" +:+ timestamp +:+ ".json")
      else ret o
  | None =>
      timestamp <- strftime_now ;;
      ret (splitext_root (video args) +:+ "_" +:+ mode_name (mode args)
             +:+ "_" +:+ timestamp +:+ ".json")
  end.

Definition main (args : Args) : M unit :=
  found <- isfile (video args) ;;
  if negb found then
    print ("Error: Video file '" +:+ video args +:+ "' not found") ;;;
    raise (SystemExit 1)
  else
    out <- output_of args ;;
    print ("Analyzing video: " +:+ video args) ;;;
    print ("Mode: " +:+ mode_name (mode args)) ;;;
    print ("Output will be saved to: " +:+ out) ;;;
    match mode args with
    | shake =>
        results <- detect_camera_shake (video args) out (threshold args) ;;
        print ("Analysis complete. Found " +:+ pretty (length results)
                 +:+ " camera shake events.")
    | face =>
        results <- detect_faces_objects (video args) out "face" ;;
        print ("Analysis complete. Found faces in "
                 +:+ pretty (length results) +:+ " frames.")
    | object =>
        results <- detect_faces_objects (video args) out "object" ;;
        print ("Analysis complete. Found objects in "
                 +:+ pretty (length results) +:+ " frames.")
    end ;;;
    print ("Results saved to: " +:+ out).

End Pipeline.

(** ** The loops without their effects

    The events a loop appends when every timestamp division succeeds, and
    the outcome of a loop as a function of that list. *)

Section Scan.

Context `{Backend}.

Definition shake_event (fps : float) (frame_count : Z) (m : float)
    : ShakeEvent.t :=
  ShakeEvent.mk frame_count (PyFloat.div (PyFloat.of_int frame_count) fps) m.

Fixpoint shake_scan (fps threshold : float) (pending : list Frame)
    (prev_gray : Gray) (frame_count : Z) : list ShakeEvent.t :=
  match pending with
  | [] => []
  | frame :: rest =>
      let gray := cvtColor frame in
      let m := flow_mean prev_gray gray in
      (if PyFloat.gt m threshold then [shake_event fps frame_count m] else [])
        ++ shake_scan fps threshold rest gray (frame_count + 1)
  end.

Definition detection_event (fps : float) (frame_count : Z)
    (detections : list Box.t) : DetectionEvent.t :=
  DetectionEvent.mk frame_count
    (PyFloat.div (PyFloat.of_int frame_count) fps) (len detections) detections.

Fixpoint detect_scan (fps : float) (cascade_path : string)
    (pending : list Frame) (frame_count : Z) : list DetectionEvent.t :=
  match pending with
  | [] => []
  | frame :: rest =>
      let detections := detectMultiScale cascade_path (cvtColor frame) in
      (if 0 <? len detections
       then [detection_event fps frame_count detections] else [])
        ++ detect_scan fps cascade_path rest (frame_count + 1)
  end.

(** With [fps = 0] the first event to append raises instead. *)
Definition loop_outcome {E} (fps : float) (acc new : list E)
    : outcome (list E) :=
  if PyFloat.is_zero fps then
    match new with
    | [] => Returned acc
    | _ :: _ => Raised ZeroDivisionError
    end
  else Returned (acc ++ new).

(** *** The specification's wording (sections 4.1 and 4.2)

    Shake detection: for each position [i = 1 .. N-1], the pair made of
    frame [i-1] and frame [i] yields an event when its mean magnitude
    exceeds the threshold.  Detection: for each position [i = 0 .. N-1],
    the frame yields an event when the classifier returns a box. *)

Definition shake_at (fps threshold : float) (frames : list Frame) (i : nat)
    : option ShakeEvent.t :=
  prev ← frames !! (i - 1)%nat;
  cur ← frames !! i;
  let m := flow_mean (cvtColor prev) (cvtColor cur) in
  if PyFloat.gt m threshold then Some (shake_event fps (Z.of_nat i) m)
  else None.

Definition shake_spec (fps threshold : float) (frames : list Frame)
    : list ShakeEvent.t :=
  omap (shake_at fps threshold frames) (seq 1 (length frames - 1)).

Definition detection_at (fps : float) (cascade_path : string)
    (frames : list Frame) (i : nat) : option DetectionEvent.t :=
  frame ← frames !! i;
  match detectMultiScale cascade_path (cvtColor frame) with
  | [] => None
  | boxes => Some (detection_event fps (Z.of_nat i) boxes)
  end.

Definition detect_spec (fps : float) (cascade_path : string)
    (frames : list Frame) : list DetectionEvent.t :=
  omap (detection_at fps cascade_path frames) (seq 0 (length frames)).

(** *** Observations on a run *)

(** The video a path opens as, when [isOpened] answers true. *)
Definition source (w : world) (video_path : string) : option Video :=
  match fs w !! video_path with
  | Some (VideoFile v) => if decodable v then Some v else None
  | _ => None
  end.

(** The effects a run added to the log. *)
Definition new_log (w w' : world) : list action :=
  drop (length (log w)) (log w').

Definition report_attempted (w w' : world) : Prop :=
  ∃ a, a ∈ new_log w w' ∧ is_write_attempt a = true.

Definition frames_read (w w' : world) : list action :=
  filter (λ a, is_read a = true) (new_log w w').

Definition released (w w' : world) : Prop :=
  CapRelease ∈ new_log w w'.

Definition reads_only (l : list action) : Prop :=
  Forall (λ a, is_read a = true) l.

(** The events a run hands back: none when it raises. *)
Definition events_of {E} (o : outcome (list E)) : list E :=
  match o with
  | Returned evs => evs
  | Raised _ => []
  end.

(** Number of frames of the video stored at a path. *)
Definition frame_total (w : world) (video_path : string) : Z :=
  match fs w !! video_path with
  | Some (VideoFile v) => len (video_frames v)
  | _ => 0
  end.

(** The report path [main] settles on (lines 174-176), given the formatted
    clock: [--output] when present and not empty, the derived name
    otherwise. *)
Definition default_output (args : Args) (stamp : string) : string :=
  splitext_root (video args) +:+ "_" +:+ mode_name (mode args)
    +:+ "_" +:+ stamp +:+ ".json".

Definition chosen_output (args : Args) (stamp : string) : string :=
  match output args with
  | Some o => if String.eqb o "" then default_output args stamp else o
  | None => default_output args stamp
  end.

(** The outcome of a statement whose value is dropped. *)
Definition forget {A} (o : outcome A) : outcome unit :=
  match o with
  | Returned _ => Returned tt
  | Raised e => Raised e
  end.

(** The log of a run that reads every one of [n] frames and then meets the
    end of the stream. *)
Definition all_reads (n : nat) : list action :=
  replicate n (CapRead true) ++ [CapRead false].

End Scan.

(** ** A concrete backend

    Frames are single brightness values; the mean flow magnitude of two
    frames is the distance of their values, and the classifier reports one
    box per ten units of brightness. *)

Definition demo : Backend :=
  {| Frame := Z;
     Gray := Z;
     cvtColor := fun f => f;
     flow_mean := fun a b => PyFloat.of_int (Z.abs (b - a));
     detectMultiScale := fun _ g =>
       replicate (Z.to_nat (g / 10)) (Box.mk 10 10 20 20);
     splitext_root := fun p => p;
     haarcascades := "/cv2/data/" |}.

Module Demo.

#[local] Existing Instance demo.

(** 0.5 and 10.0 as binary64 values. *)
Definition half : float := S754_finite false 4503599627370496 (-53).
Definition ten : float := PyFloat.of_int 10.

(** 0.9999999999999999, the double just below 1.0, and 0.1. *)
Definition below_one : float := S754_finite false 9007199254740991 (-53).
Definition tenth : float := S754_finite false 7205759403792794 (-56).

Definition clip : Video :=
  {| decodable := true; video_fps := ten; video_frames := [0; 1; 1; 30] |}.
Definition stalled : Video :=
  {| decodable := true; video_fps := PyFloat.zero; video_frames := [0; 20] |}.
Definition blank : Video :=
  {| decodable := true; video_fps := ten; video_frames := [] |}.
Definition garbled : Video :=
  {| decodable := false; video_fps := ten; video_frames := [] |}.

(** The synthetic videos of the specification's scenarios A, B and C. *)
Definition static3 : Video :=
  {| decodable := true; video_fps := PyFloat.of_int 30;
     video_frames := [7; 7; 7] |}.
Definition jolt2 : Video :=
  {| decodable := true; video_fps := ten; video_frames := [0; 1] |}.
Definition faces5 : Video :=
  {| decodable := true; video_fps := PyFloat.of_int 25;
     video_frames := [10; 0; 0; 10; 0] |}.

Definition disk : world :=
  {| fs := {[ "clip.mp4" := VideoFile clip;
              "static3.mp4" := VideoFile static3;
              "jolt2.mp4" := VideoFile jolt2;
              "faces5.mp4" := VideoFile faces5;
              "stalled.mp4" := VideoFile stalled;
              "blank.mp4" := VideoFile blank;
              "garbled.mp4" := VideoFile garbled ]};
     locked := ∅;
     now := "20240101_120000";
     log := [] |}.

(** A one-frame video, and the disk with it, a video whose frame rate is
    zero but whose frames never differ, and a report path that cannot be
    written. *)
Definition lone : Video :=
  {| decodable := true; video_fps := PyFloat.zero; video_frames := [5] |}.
Definition frozen : Video :=
  {| decodable := true; video_fps := PyFloat.zero;
     video_frames := [4; 4; 4] |}.

Definition shelf : world :=
  {| fs := {[ "clip.mp4" := VideoFile clip;
              "lone.mp4" := VideoFile lone;
              "frozen.mp4" := VideoFile frozen;
              "blank.mp4" := VideoFile blank;
              "stalled.mp4" := VideoFile stalled;
              "garbled.mp4" := VideoFile garbled;
              "notes.json" := JsonFile (JList []) ]};
     locked := {[ "sealed.json" ]};
     now := "20240101_120000";
     log := [Print "earlier"] |}.

End Demo.

(** * The build script (src/build.py)

    The script cleans earlier build directories, installs PyInstaller and
    the requirements with pip, runs PyInstaller for the current platform
    and reports on the executable.  The processes it starts,
    [shutil.rmtree] and the [.2f] formatting of a float are external: a
    process is given the current tree of paths (each with its size in
    bytes) and returns an exit status and the tree it leaves, or cannot be
    started at all. *)

Module Build.

Inductive error : Type :=
| CalledProcessError (cmd : list string) (returncode : Z)
| CommandNotFound (cmd : list string)
| PathError (path : string).

Inductive result (A : Type) : Type :=
| Done (a : A)
| Failed (e : error).
Arguments Done {A} a.
Arguments Failed {A} e.

Inductive effect : Type :=
| Say (msg : string)
| Rmtree (path : string)
| Run (cmd : list string).

Class Host : Type :=
  { run_process :
      list string -> gmap string Z -> option (Z * gmap string Z);
    remove_tree : string -> gmap string Z -> option (gmap string Z);
    format_2f : float -> string }.

(** [tree]: the existing paths with their sizes; [system]: what
    [platform.system()] answers; [trace]: the effects so far. *)
Record state : Type :=
  { tree : gmap string Z; system : string; trace : list effect }.

Definition B (A : Type) : Type := state -> result A * state.

Definition pure {A} (a : A) : B A := fun s => (Done a, s).
Definition and_then {A C} (m : B A) (k : A -> B C) : B C :=
  fun s =>
    match m s with
    | (Done a, s') => k a s'
    | (Failed e, s') => (Failed e, s')
    end.

Notation "x <- m ;; k" := (and_then m (fun x => k))
  (at level 100, m at next level, right associativity).
Notation "m ;;; k" := (and_then m (fun _ => k))
  (at level 100, right associativity).

Definition note (s : state) (t : gmap string Z) (e : effect) : state :=
  {| tree := t; system := system s; trace := trace s ++ [e] |}.

Definition say (msg : string) : B unit :=
  fun s => (Done tt, note s (tree s) (Say msg)).

Definition path_exists (path : string) : B bool :=
  fun s => (Done (bool_decide (is_Some (tree s !! path))), s).

Definition getsize (path : string) : B Z :=
  fun s =>
    match tree s !! path with
    | Some size => (Done size, s)
    | None => (Failed (PathError path), s)
    end.

Definition platform_system : B string := fun s => (Done (system s), s).

Section Script.

Context `{Host}.

(** [shutil.rmtree(path)] *)
Definition rmtree (path : string) : B unit :=
  fun s =>
    match remove_tree path (tree s) with
    | Some t => (Done tt, note s t (Rmtree path))
    | None => (Failed (PathError path), note s (tree s) (Rmtree path))
    end.

(** [subprocess.run(cmd, check=True)] *)
Definition run (cmd : list string) : B unit :=
  fun s =>
    match run_process cmd (tree s) with
    | None => (Failed (CommandNotFound cmd), note s (tree s) (Run cmd))
    | Some (returncode, t) =>
        if returncode =? 0 then (Done tt, note s t (Run cmd))
        else (Failed (CalledProcessError cmd returncode), note s t (Run cmd))
    end.

Definition pip_pyinstaller : list string := ["pip"; "install"; "pyinstaller"].
Definition pip_requirements : list string :=
  ["pip"; "install"; "-r"; "requirements.txt"].
Definition pyinstaller : list string :=
  ["pyinstaller"; "--onefile"; "--name=video_analyzer"; "main.py"].

Definition newline : string := String (Ascii.ascii_of_nat 10) EmptyString.

(** The texts the script prints, in the order of the source. *)
Definition text_title : string := "Видео Анализатор - Скрипт сборки".
Definition text_rule : string := "--------------------------------".
Definition text_removing : string := "Удаление предыдущих сборок...".
Definition text_platform : string := "Обнаружена платформа: ".
Definition text_pyinstaller : string := "Установка PyInstaller...".
Definition text_requirements : string := "Установка зависимостей...".
Definition text_building : string := "Сборка для ".
Definition text_unsupported : string := "Неподдерживаемая платформа: ".
Definition text_success : string :=
  "Сборка успешно завершена! Исполняемый файл: ".
Definition text_size : string := "Размер файла: ".
Definition text_mb : string := " МБ".
Definition text_usage : string := newline +:+ "Как использовать:".
Definition text_arguments : string :=
  " video.mp4 --mode shake --output results.json".
Definition text_failed : string := "Сборка не удалась!".

(** Lines 46-55: the verdict on the executable. *)
Definition verdict (output_file : string) : B unit :=
  found <- path_exists output_file ;;
  if found then
    say (text_success +:+ output_file) ;;;
    size <- getsize output_file ;;
    let size_mb :=
      PyFloat.div (PyFloat.of_int size) (PyFloat.of_int (1024 * 1024)) in
    say (text_size +:+ format_2f size_mb +:+ text_mb) ;;;
    say text_usage ;;;
    say (output_file +:+ text_arguments)
  else
    say text_failed.

Definition main : B unit :=
  say text_title ;;;
  say text_rule ;;;
  old_dist <- path_exists "dist" ;;
  (if old_dist then
     say text_removing ;;;
     rmtree "dist"
   else pure tt) ;;;
  old_build <- path_exists "build" ;;
  (if old_build then rmtree "build" else pure tt) ;;;
  current_os <- platform_system ;;
  say (text_platform +:+ current_os) ;;;
  say text_pyinstaller ;;;
  run pip_pyinstaller ;;;
  say text_requirements ;;;
  run pip_requirements ;;;
  say (text_building +:+ current_os +:+ "...") ;;;
  if String.eqb current_os "Windows" then
    run pyinstaller ;;;
    verdict "dist/video_analyzer.exe"
  else if String.eqb current_os "Darwin" then
    run pyinstaller ;;;
    verdict "dist/video_analyzer"
  else if String.eqb current_os "Linux" then
    run pyinstaller ;;;
    verdict "dist/video_analyzer"
  else
    say (text_unsupported +:+ current_os).

(** *** Observations on a run of the script *)

Definition new_trace (s s' : state) : list effect :=
  drop (length (trace s)) (trace s').

Definition commands (t : list effect) : list (list string) :=
  omap (λ e, match e with Run cmd => Some cmd | _ => None end) t.

Definition supported (os : string) : Prop :=
  os = "Windows" ∨ os = "Darwin" ∨ os = "Linux".

(** The executable PyInstaller leaves for a platform. *)
Definition output_file (os : string) : string :=
  if String.eqb os "Windows" then "dist/video_analyzer.exe"
  else "dist/video_analyzer".

End Script.

(** A host on which every command succeeds; PyInstaller leaves a 3 MiB
    executable, without the [.exe] suffix whatever the platform. *)
Definition demo_host : Host :=
  {| run_process := fun cmd t =>
       match cmd with
       | "pyinstaller" :: _ => Some (0, <["dist/video_analyzer" := 3145728]> t)
       | _ => Some (0, t)
       end;
     remove_tree := fun path t => Some (delete path t);
     format_2f := fun _ => "3.00" |}.

(** A host on which the first pip command fails with status 1. *)
Definition bare_host : Host :=
  {| run_process := fun cmd t =>
       match cmd with
       | "pip" :: "install" :: "pyinstaller" :: _ => Some (1, t)
       | _ => Some (0, t)
       end;
     remove_tree := fun path t => Some (delete path t);
     format_2f := fun _ => "0.00" |}.

Definition fresh (os : string) : state :=
  {| tree := {[ "main.py" := 6000; "dist" := 4096 ]};
     system := os; trace := [Say "$ python build.py"] |}.

End Build.

(** * Properties *)

(** ** Floats *)

Lemma float_lt_trans (a b c : float) :
  PyFloat.lt a b = true -> PyFloat.lt b c = true -> PyFloat.lt a c = true.
Proof.
  unfold PyFloat.lt, SFltb.
  destruct a as [sa|sa| |sa ma ea], b as [sb|sb| |sb mb eb],
           c as [sc|sc| |sc mc ec]; simpl;
    try discriminate; try reflexivity;
    repeat match goal with s : bool |- _ => destruct s end; simpl;
    try discriminate; try reflexivity.
  all: change (Pos.compare_cont Eq ?p ?q) with (Pos.compare p q).
  all: destruct (Z.compare_spec ea eb), (Z.compare_spec eb ec),
         (Z.compare_spec ea ec); subst; try lia;
       try discriminate; try reflexivity.
  all: destruct (Pos.compare_spec ma mb), (Pos.compare_spec mb mc),
         (Pos.compare_spec ma mc); subst; simpl; try lia;
       try discriminate; try reflexivity.
Qed.

Lemma float_gt_weaken (m t1 t2 : float) :
  PyFloat.lt t1 t2 = true -> PyFloat.gt m t2 = true -> PyFloat.gt m t1 = true.
Proof. unfold PyFloat.gt. apply float_lt_trans. Qed.


Lemma float_positive_nonzero (x : float) :
  PyFloat.gt x PyFloat.zero = true -> PyFloat.is_zero x = false.
Proof. destruct x; simpl; try discriminate; reflexivity. Qed.

Lemma truediv_nonzero (n : Z) (x : float) :
  PyFloat.is_zero x = false ->
  truediv n x = Returned (PyFloat.div (PyFloat.of_int n) x).
Proof. unfold truediv. intros ->. reflexivity. Qed.

Lemma truediv_zero (n : Z) (x : float) :
  PyFloat.is_zero x = true -> truediv n x = Raised ZeroDivisionError.
Proof. unfold truediv. intros ->. reflexivity. Qed.

(** ** Lists *)

Lemma StronglySorted_sublist {A} (R : relation A) (l k : list A) :
  sublist l k -> StronglySorted R k -> StronglySorted R l.
Proof.
  induction 1 as [|x l k Hs IH|x l k Hs IH]; intros Hk.
  - constructor.
  - apply StronglySorted_inv in Hk as [Hk Hx]. constructor; [auto|].
    rewrite Forall_forall in Hx |- *. intros y Hy. apply Hx.
    eapply sublist_subseteq; eassumption.
  - apply StronglySorted_inv in Hk as [Hk _]. auto.
Qed.

Lemma StronglySorted_seqZ (m : Z) (n : nat) :
  StronglySorted Z.lt (seqZ m (Z.of_nat n)).
Proof.
  revert m. induction n as [|n IH]; intros m.
  - rewrite seqZ_nil by lia. constructor.
  - rewrite seqZ_cons by lia. constructor.
    + replace (Z.pred (Z.of_nat (S n))) with (Z.of_nat n) by lia. apply IH.
    + apply Forall_forall. intros y Hy. apply elem_of_seqZ in Hy. lia.
Qed.

(** ** Logs *)

Lemma reads_only_elem (l : list action) (a : action) :
  reads_only l -> a ∈ l -> is_read a = true.
Proof. unfold reads_only. rewrite Forall_forall. auto. Qed.

(** Membership of an action in an explicit piece of log. *)
Ltac in_log Hin :=
  repeat first
    [ apply elem_of_nil in Hin; destruct Hin
    | apply elem_of_cons in Hin as [Hin|Hin]; [try discriminate Hin|]
    | apply elem_of_app in Hin as [Hin|Hin]
    | match goal with
      | Hl : reads_only ?l |- _ =>
          match type of Hin with
          | _ ∈ l =>
              apply (reads_only_elem _ _ Hl) in Hin; discriminate Hin
          end
      end ].

(** ** The world and the loops *)

Section Properties.

Context `{Backend}.

Implicit Types (w : world) (l : list action) (fps threshold : float).

Lemma add_log_app w l1 l2 : add_log (add_log w l1) l2 = add_log w (l1 ++ l2).
Proof. unfold add_log; simpl. by rewrite app_assoc. Qed.

Lemma write_file_add_log w l path doc :
  write_file (add_log w l) path doc = add_log (write_file w path doc) l.
Proof. reflexivity. Qed.

Ltac norm_log :=
  unfold ret;
  repeat (rewrite write_file_add_log || rewrite add_log_app);
  simpl; rewrite <- ?app_assoc; reflexivity.

Lemma new_log_add_log w w' l :
  log w' = log w -> new_log w (add_log w' l) = l.
Proof.
  intros Hlog. unfold new_log, add_log; simpl.
  rewrite Hlog. apply drop_app_length.
Qed.

Lemma loop_outcome_nil {E} fps (acc : list E) :
  loop_outcome fps acc [] = Returned acc.
Proof. unfold loop_outcome. rewrite app_nil_r. by destruct PyFloat.is_zero. Qed.

Lemma loop_outcome_skip {E} fps (acc new : list E) :
  loop_outcome fps acc ([] ++ new) = loop_outcome fps acc new.
Proof. reflexivity. Qed.

Lemma loop_outcome_zero {E} fps (acc : list E) (e : E) new :
  PyFloat.is_zero fps = true ->
  loop_outcome fps acc ([e] ++ new) = Raised ZeroDivisionError.
Proof. unfold loop_outcome. by intros ->. Qed.

Lemma loop_outcome_push {E} fps (acc : list E) (e : E) new :
  PyFloat.is_zero fps = false ->
  loop_outcome fps acc ([e] ++ new) = loop_outcome fps (acc ++ [e]) new.
Proof. unfold loop_outcome. intros ->. by rewrite <- app_assoc. Qed.

(** The shake loop returns what [shake_scan] lists, or raises at the first
    event when [fps] is zero; it only adds frame reads to the log. *)
Lemma shake_loop_run fps threshold pending prev_gray frame_count acc w :
  ∃ l, reads_only l ∧
    shake_loop fps threshold pending prev_gray frame_count acc w =
      (loop_outcome fps acc
         (shake_scan fps threshold pending prev_gray frame_count),
       add_log w l).
Proof.
  revert prev_gray frame_count acc w.
  induction pending as [|frame rest IH]; intros prev_gray frame_count acc w.
  - exists [CapRead false]. split; [by repeat constructor|].
    simpl. by rewrite loop_outcome_nil.
  - simpl. unfold bind at 1. simpl.
    destruct (PyFloat.gt _ threshold) eqn:Hgt.
    + destruct (PyFloat.is_zero fps) eqn:Hz.
      * exists [CapRead true]. split; [by repeat constructor|].
        unfold bind, lift. rewrite truediv_zero by done.
        by rewrite loop_outcome_zero.
      * destruct (IH (cvtColor frame) (frame_count + 1)
                    (acc ++ [shake_event fps frame_count
                               (flow_mean prev_gray (cvtColor frame))])
                    (add_log w [CapRead true])) as (l & Hl & Heq).
        exists (CapRead true :: l). split; [by constructor|].
        unfold bind, lift. rewrite truediv_nonzero by done.
        unfold shake_event in Heq. rewrite Heq, add_log_app.
        by rewrite loop_outcome_push.
    + destruct (IH (cvtColor frame) (frame_count + 1) acc
                  (add_log w [CapRead true])) as (l & Hl & Heq).
      exists (CapRead true :: l). split; [by constructor|].
      by rewrite Heq, add_log_app.
Qed.

Lemma detect_loop_run fps cascade_path pending frame_count acc w :
  ∃ l, reads_only l ∧
    detect_loop fps cascade_path pending frame_count acc w =
      (loop_outcome fps acc
         (detect_scan fps cascade_path pending frame_count),
       add_log w l).
Proof.
  revert frame_count acc w.
  induction pending as [|frame rest IH]; intros frame_count acc w.
  - exists [CapRead false]. split; [by repeat constructor|].
    simpl. by rewrite loop_outcome_nil.
  - simpl. unfold bind at 1. simpl.
    destruct (0 <? len _) eqn:Hlen.
    + destruct (PyFloat.is_zero fps) eqn:Hz.
      * exists [CapRead true]. split; [by repeat constructor|].
        unfold bind, lift. rewrite truediv_zero by done.
        by rewrite loop_outcome_zero.
      * destruct (IH (frame_count + 1)
                    (acc ++ [detection_event fps frame_count
                               (detectMultiScale cascade_path
                                  (cvtColor frame))])
                    (add_log w [CapRead true])) as (l & Hl & Heq).
        exists (CapRead true :: l). split; [by constructor|].
        unfold bind, lift. rewrite truediv_nonzero by done.
        unfold detection_event in Heq. rewrite Heq, add_log_app.
        by rewrite loop_outcome_push.
    + destruct (IH (frame_count + 1) acc
                  (add_log w [CapRead true])) as (l & Hl & Heq).
      exists (CapRead true :: l). split; [by constructor|].
      by rewrite Heq, add_log_app.
Qed.

(** ** The paths through the two operations *)

Lemma VideoCapture_closed w video_path :
  source w video_path = None ->
  ∃ cap, opened cap = false ∧
    VideoCapture video_path w =
      (Returned cap, add_log w [CapOpen video_path false]).
Proof.
  unfold source, VideoCapture. intros Hsrc.
  destruct (fs w !! video_path) as [[v|doc]|];
    try (eexists; split; [|reflexivity]; reflexivity).
  destruct (decodable v) eqn:Hdec; [done|].
  eexists. split; [|reflexivity]. reflexivity.
Qed.

Lemma VideoCapture_opened w video_path v :
  source w video_path = Some v ->
  VideoCapture video_path w =
    (Returned {| opened := true; cap_fps := video_fps v;
                 pending := video_frames v |},
     add_log w [CapOpen video_path true]).
Proof.
  unfold source, VideoCapture. intros Hsrc.
  destruct (fs w !! video_path) as [[v'|doc]|]; try done.
  destruct (decodable v') eqn:Hdec; [|done].
  injection Hsrc as ->. reflexivity.
Qed.

Lemma shake_run_closed w video_path output_path threshold :
  source w video_path = None ->
  detect_camera_shake video_path output_path threshold w =
    (Returned [],
     add_log w [CapOpen video_path false;
                Print ("Error: Could not open video " +:+ video_path)]).
Proof.
  intros Hsrc. destruct (VideoCapture_closed _ _ Hsrc) as (cap & Hcap & Heq).
  unfold detect_camera_shake, bind at 1. rewrite Heq, Hcap. simpl.
  unfold bind, print, tell, ret. by rewrite add_log_app.
Qed.

Lemma shake_run_empty w video_path output_path threshold v :
  source w video_path = Some v -> video_frames v = [] ->
  detect_camera_shake video_path output_path threshold w =
    (Returned [],
     add_log w [CapOpen video_path true; CapRead false;
                Print "Error: Could not read first frame"]).
Proof.
  intros Hsrc Hfr. unfold detect_camera_shake, bind at 1.
  rewrite (VideoCapture_opened _ _ _ Hsrc). simpl.
  unfold read; simpl. rewrite Hfr.
  unfold bind, print, tell, ret. by rewrite !add_log_app.
Qed.

Lemma shake_run_frames w video_path output_path threshold v f0 rest :
  source w video_path = Some v -> video_frames v = f0 :: rest ->
  ∃ l, reads_only l ∧
    detect_camera_shake video_path output_path threshold w =
      match loop_outcome (video_fps v) []
              (shake_scan (video_fps v) threshold rest (cvtColor f0) 1) with
      | Raised e =>
          (Raised e, add_log w (CapOpen video_path true :: CapRead true :: l))
      | Returned evs =>
          if decide (output_path ∈ locked w) then
            (Raised OSError,
             add_log w (CapOpen video_path true :: CapRead true :: l
                          ++ [CapRelease; FileWriteFailed output_path]))
          else
            (Returned evs,
             add_log (write_file w output_path (shake_report video_path evs))
               (CapOpen video_path true :: CapRead true :: l
                  ++ [CapRelease;
                      FileWrite output_path (shake_report video_path evs)]))
      end.
Proof.
  intros Hsrc Hfr.
  destruct (shake_loop_run (video_fps v) threshold rest (cvtColor f0) 1 []
              (add_log (add_log w [CapOpen video_path true]) [CapRead true]))
    as (l & Hl & Heq).
  exists l. split; [done|].
  unfold detect_camera_shake, bind at 1.
  rewrite (VideoCapture_opened _ _ _ Hsrc). simpl.
  unfold read; simpl. rewrite Hfr. unfold bind at 1; simpl.
  unfold bind at 1; simpl. rewrite Heq.
  destruct (loop_outcome _ _ _) as [evs|e]; simpl.
  - unfold bind, dump; simpl.
    destruct (decide (output_path ∈ locked w)); simpl; norm_log.
  - norm_log.
Qed.

Lemma detect_run_closed w video_path output_path cascade_type :
  source w video_path = None ->
  detect_faces_objects video_path output_path cascade_type w =
    (Returned [],
     add_log w [CapOpen video_path false;
                Print ("Error: Could not open video " +:+ video_path)]).
Proof.
  intros Hsrc. destruct (VideoCapture_closed _ _ Hsrc) as (cap & Hcap & Heq).
  unfold detect_faces_objects, bind at 1. rewrite Heq, Hcap. simpl.
  unfold bind, print, tell, ret. by rewrite add_log_app.
Qed.

Lemma detect_run_unknown w video_path output_path cascade_type v :
  source w video_path = Some v -> cascade_path_of cascade_type = None ->
  detect_faces_objects video_path output_path cascade_type w =
    (Returned [],
     add_log w [CapOpen video_path true;
                Print ("Error: Unknown cascade type '" +:+ cascade_type
                         +:+ "'")]).
Proof.
  intros Hsrc Hct. unfold detect_faces_objects, bind at 1.
  rewrite (VideoCapture_opened _ _ _ Hsrc). simpl. rewrite Hct.
  unfold bind, print, tell, ret. by rewrite add_log_app.
Qed.

Lemma detect_run_known w video_path output_path cascade_type v cascade_path :
  source w video_path = Some v ->
  cascade_path_of cascade_type = Some cascade_path ->
  ∃ l, reads_only l ∧
    detect_faces_objects video_path output_path cascade_type w =
      match loop_outcome (video_fps v) []
              (detect_scan (video_fps v) cascade_path (video_frames v) 0) with
      | Raised e => (Raised e, add_log w (CapOpen video_path true :: l))
      | Returned evs =>
          let doc := detection_report video_path cascade_type evs in
          if decide (output_path ∈ locked w) then
            (Raised OSError,
             add_log w (CapOpen video_path true :: l
                          ++ [CapRelease; FileWriteFailed output_path]))
          else
            (Returned evs,
             add_log (write_file w output_path doc)
               (CapOpen video_path true :: l
                  ++ [CapRelease; FileWrite output_path doc]))
      end.
Proof.
  intros Hsrc Hct.
  destruct (detect_loop_run (video_fps v) cascade_path (video_frames v) 0 []
              (add_log w [CapOpen video_path true])) as (l & Hl & Heq).
  exists l. split; [done|].
  unfold detect_faces_objects, bind at 1.
  rewrite (VideoCapture_opened _ _ _ Hsrc). simpl. rewrite Hct.
  unfold bind at 1; simpl. rewrite Heq.
  destruct (loop_outcome _ _ _) as [evs|e]; simpl.
  - unfold bind, dump; simpl.
    destruct (decide (output_path ∈ locked w)); simpl; norm_log.
  - norm_log.
Qed.

(** ** The scans against the specification's wording *)

Lemma shake_scan_from fps threshold frames pending (k : nat) p :
  (1 <= k)%nat -> frames !! (k - 1)%nat = Some p ->
  drop k frames = pending ->
  shake_scan fps threshold pending (cvtColor p) (Z.of_nat k) =
    omap (shake_at fps threshold frames) (seq k (length frames - k)).
Proof.
  revert k p. induction pending as [|f rest IH]; intros k p Hk Hp Hdrop.
  - apply (f_equal length) in Hdrop. rewrite length_drop in Hdrop.
    simpl in Hdrop. by rewrite Hdrop.
  - assert (Hf : frames !! k = Some f).
    { rewrite <- (Nat.add_0_r k), <- lookup_drop, Hdrop. done. }
    assert (Hrest : drop (S k) frames = rest).
    { rewrite (drop_S _ _ _ Hf) in Hdrop. by injection Hdrop. }
    assert (Hlen : (length frames - k = S (length frames - S k))%nat).
    { apply lookup_lt_Some in Hf. lia. }
    rewrite Hlen. simpl seq. simpl omap. simpl shake_scan.
    unfold shake_at at 1. rewrite Hp, Hf. simpl.
    replace (Z.of_nat k + 1) with (Z.of_nat (S k)) by lia.
    rewrite (IH (S k) f); [ |lia| |done].
    + by destruct (PyFloat.gt _ threshold).
    + by replace (S k - 1)%nat with k by lia.
Qed.

Lemma shake_scan_spec fps threshold f0 rest :
  shake_scan fps threshold rest (cvtColor f0) 1 =
    shake_spec fps threshold (f0 :: rest).
Proof.
  unfold shake_spec.
  apply (shake_scan_from fps threshold (f0 :: rest) rest 1 f0);
    [lia|done|done].
Qed.

Lemma detect_scan_from fps cascade_path frames pending (k : nat) :
  drop k frames = pending ->
  detect_scan fps cascade_path pending (Z.of_nat k) =
    omap (detection_at fps cascade_path frames) (seq k (length frames - k)).
Proof.
  revert k. induction pending as [|f rest IH]; intros k Hdrop.
  - apply (f_equal length) in Hdrop. rewrite length_drop in Hdrop.
    simpl in Hdrop. by rewrite Hdrop.
  - assert (Hf : frames !! k = Some f).
    { rewrite <- (Nat.add_0_r k), <- lookup_drop, Hdrop. done. }
    assert (Hrest : drop (S k) frames = rest).
    { rewrite (drop_S _ _ _ Hf) in Hdrop. by injection Hdrop. }
    assert (Hlen : (length frames - k = S (length frames - S k))%nat).
    { apply lookup_lt_Some in Hf. lia. }
    rewrite Hlen. simpl seq. simpl omap. simpl detect_scan.
    unfold detection_at at 1. rewrite Hf. simpl.
    replace (Z.of_nat k + 1) with (Z.of_nat (S k)) by lia.
    rewrite (IH (S k) Hrest).
    by destruct (detectMultiScale cascade_path (cvtColor f)).
Qed.

Lemma detect_scan_spec fps cascade_path frames :
  detect_scan fps cascade_path frames 0 = detect_spec fps cascade_path frames.
Proof.
  unfold detect_spec. rewrite <- (Nat.sub_0_r (length frames)).
  by apply (detect_scan_from fps cascade_path frames frames 0).
Qed.

Lemma shake_spec_nil fps threshold : shake_spec fps threshold [] = [].
Proof. reflexivity. Qed.

(** An event of the specification sits at one position of the video. *)
Lemma elem_of_shake_spec fps threshold frames e :
  e ∈ shake_spec fps threshold frames ↔
  ∃ i, (1 <= i < length frames)%nat ∧ shake_at fps threshold frames i = Some e.
Proof.
  unfold shake_spec. rewrite list_elem_of_omap. split.
  - intros (i & Hi & He). exists i. split; [|done].
    apply elem_of_seq in Hi. lia.
  - intros (i & Hi & He). exists i. split; [|done].
    apply elem_of_seq. lia.
Qed.

Lemma elem_of_detect_spec fps cascade_path frames e :
  e ∈ detect_spec fps cascade_path frames ↔
  ∃ i, (i < length frames)%nat ∧
       detection_at fps cascade_path frames i = Some e.
Proof.
  unfold detect_spec. rewrite list_elem_of_omap. split.
  - intros (i & Hi & He). exists i. split; [|done].
    apply elem_of_seq in Hi. lia.
  - intros (i & Hi & He). exists i. split; [|done].
    apply elem_of_seq. lia.
Qed.

Lemma shake_at_frame fps threshold frames i e :
  shake_at fps threshold frames i = Some e ->
  ShakeEvent.frame e = Z.of_nat i.
Proof.
  unfold shake_at. intros He.
  destruct (frames !! (i - 1)%nat); simpl in He; [|done].
  destruct (frames !! i); simpl in He; [|done].
  destruct (PyFloat.gt _ _); [|done]. by injection He as <-.
Qed.

Lemma detection_at_frame fps cascade_path frames i e :
  detection_at fps cascade_path frames i = Some e ->
  DetectionEvent.frame e = Z.of_nat i.
Proof.
  unfold detection_at. intros He.
  destruct (frames !! i); simpl in He; [|done].
  destruct (detectMultiScale _ _); [done|]. by injection He as <-.
Qed.

Lemma fmap_of_nat_seq (j n : nat) :
  Z.of_nat <$> seq j n = seqZ (Z.of_nat j) (Z.of_nat n).
Proof.
  unfold seqZ. rewrite Nat2Z.id.
  replace (seq j n) with (Nat.add j <$> seq 0 n)
    by (rewrite fmap_add_seq; f_equal; lia).
  rewrite <- list_fmap_compose. apply list_fmap_ext.
  intros ? i ?. simpl. lia.
Qed.

Lemma omap_frames_sublist {E} (at_ : nat -> option E) (frame : E -> Z)
    (positions : list nat) :
  (∀ i e, at_ i = Some e -> frame e = Z.of_nat i) ->
  sublist (frame <$> omap at_ positions) (Z.of_nat <$> positions).
Proof.
  intros Hframe. induction positions as [|i positions IH]; [constructor|].
  simpl. destruct (at_ i) as [e|] eqn:He; simpl.
  - rewrite (Hframe _ _ He). by constructor.
  - by constructor.
Qed.

(** The events found at one frame index, among those produced for a range
    of positions. *)
Lemma filter_omap_seq {E} (at_ : nat -> option E) (frame : E -> Z)
    (a n j : nat) :
  (∀ i e, at_ i = Some e -> frame e = Z.of_nat i) ->
  filter (λ e, frame e = Z.of_nat j) (omap at_ (seq a n)) =
    if decide (a <= j < a + n)%nat then option_list (at_ j) else [].
Proof.
  intros Hframe. revert a. induction n as [|n IH]; intros a.
  - simpl. case_decide; [lia|done].
  - simpl. destruct (at_ a) as [e|] eqn:He.
    + rewrite filter_cons, IH, (Hframe _ _ He).
      destruct (decide (a = j)) as [->|Hne].
      * rewrite decide_True by done. rewrite decide_False by lia.
        rewrite decide_True by lia. by rewrite He.
      * rewrite decide_False by lia.
        destruct (decide (S a <= j < S a + n)%nat).
        -- by rewrite decide_True by lia.
        -- by rewrite decide_False by lia.
    + rewrite IH. destruct (decide (a = j)) as [->|Hne].
      * rewrite decide_False by lia. rewrite decide_True by lia.
        by rewrite He.
      * destruct (decide (S a <= j < S a + n)%nat).
        -- by rewrite decide_True by lia.
        -- by rewrite decide_False by lia.
Qed.

Lemma loop_outcome_returned {E} fps (new evs : list E) :
  loop_outcome fps [] new = Returned evs -> evs = [] ∨ evs = new.
Proof.
  unfold loop_outcome. destruct (PyFloat.is_zero fps).
  - destruct new; [|done]. intros [= <-]. by left.
  - intros [= <-]. by right.
Qed.

Lemma loop_outcome_nonzero {E} fps (new : list E) :
  PyFloat.is_zero fps = false -> loop_outcome fps [] new = Returned new.
Proof. unfold loop_outcome. by intros ->. Qed.

(** ** Shake detection on a source that opens *)

(** With a nonzero frame rate and a writable report path, the operation
    returns the events of the specification and stores their report. *)
Lemma shake_run_ok w video_path output_path threshold v :
  source w video_path = Some v ->
  video_frames v ≠ [] ->
  PyFloat.is_zero (video_fps v) = false ->
  output_path ∉ locked w ->
  let evs := shake_spec (video_fps v) threshold (video_frames v) in
  let doc := shake_report video_path evs in
  ∃ l, reads_only l ∧
    detect_camera_shake video_path output_path threshold w =
      (Returned evs,
       add_log (write_file w output_path doc)
         (CapOpen video_path true :: CapRead true :: l
            ++ [CapRelease; FileWrite output_path doc])).
Proof.
  intros Hsrc Hne Hfps Hout evs doc. subst evs doc.
  destruct (video_frames v) as [|f0 rest] eqn:Hfr; [done|].
  destruct (shake_run_frames w video_path output_path threshold v f0 rest
              Hsrc Hfr) as (l & Hl & Heq).
  exists l. split; [done|]. rewrite Heq.
  rewrite loop_outcome_nonzero by done.
  rewrite decide_False by done. by rewrite shake_scan_spec.
Qed.






(** ** Frame indices of shake events *)

Lemma shake_spec_indices fps threshold frames :
  sublist (ShakeEvent.frame <$> shake_spec fps threshold frames)
    (seqZ 1 (len frames - 1)).
Proof.
  destruct frames as [|f0 rest]; [by rewrite shake_spec_nil|].
  unfold shake_spec, len.
  replace (Z.of_nat (length (f0 :: rest)) - 1)
    with (Z.of_nat (length (f0 :: rest) - 1)) by (simpl; lia).
  change 1 with (Z.of_nat 1). rewrite <- fmap_of_nat_seq.
  apply omap_frames_sublist, shake_at_frame.
Qed.

Lemma frame_total_source w video_path v :
  source w video_path = Some v ->
  frame_total w video_path = len (video_frames v).
Proof.
  unfold source, frame_total.
  destruct (fs w !! video_path) as [[v'|doc]|]; try done.
  destruct (decodable v'); [|done]. by intros [= ->].
Qed.

(** C6. Whenever shake detection returns, the frame indices of its events
    are strictly increasing, are a subsequence of [1 .. N-1] in that
    order, [N] being the number of frames of the video, and never 0. *)
Theorem shake_frames_increasing w video_path output_path threshold evs :
  fst (detect_camera_shake video_path output_path threshold w)
    = Returned evs ->
  let indices := ShakeEvent.frame <$> evs in
  StronglySorted Z.lt indices ∧
  sublist indices (seqZ 1 (frame_total w video_path - 1)) ∧
  0 ∉ indices.
Proof.
  intros Hrun indices.
  assert (Hsub : sublist indices (seqZ 1 (frame_total w video_path - 1))).
  { subst indices. destruct (source w video_path) as [v|] eqn:Hsrc.
    - rewrite (frame_total_source _ _ _ Hsrc).
      destruct (video_frames v) as [|f0 rest] eqn:Hfr.
      + rewrite (shake_run_empty _ _ _ _ _ Hsrc Hfr) in Hrun.
        injection Hrun as <-. apply sublist_nil_l.
      + destruct (shake_run_frames w video_path output_path threshold v
                    f0 rest Hsrc Hfr) as (l & _ & Heq).
        rewrite Heq in Hrun. clear Heq.
        destruct (loop_outcome _ _ _) as [evs'|e] eqn:Hloop; [|done].
        destruct (decide (output_path ∈ locked w)); [done|].
        injection Hrun as ->.
        apply loop_outcome_returned in Hloop as [->| ->];
          [apply sublist_nil_l|].
        rewrite shake_scan_spec. apply shake_spec_indices.
    - rewrite (shake_run_closed _ _ _ _ Hsrc) in Hrun.
      injection Hrun as <-. apply sublist_nil_l. }
  split; [|split; [done|]].
  - eapply StronglySorted_sublist; [exact Hsub|].
    destruct (decide (0 <= frame_total w video_path - 1)) as [Hpos|Hneg].
    + rewrite <- (Z2Nat.id _ Hpos). apply StronglySorted_seqZ.
    + rewrite seqZ_nil by lia. constructor.
  - intros Hin. apply (sublist_subseteq _ _ Hsub) in Hin.
    apply elem_of_seqZ in Hin. lia.
Qed.

(** ** Raising the threshold *)

Lemma shake_scan_mono fps t1 t2 pending prev_gray frame_count :
  PyFloat.lt t1 t2 = true ->
  sublist (shake_scan fps t2 pending prev_gray frame_count)
          (shake_scan fps t1 pending prev_gray frame_count).
Proof.
  intros Hlt. revert prev_gray frame_count.
  induction pending as [|frame rest IH]; intros prev_gray frame_count.
  - constructor.
  - simpl. apply sublist_app; [|apply IH].
    destruct (PyFloat.gt _ t2) eqn:Hgt.
    + by rewrite (float_gt_weaken _ _ _ Hlt Hgt).
    + apply sublist_nil_l.
Qed.

(** The three ways through [detect_camera_shake], as one case split on
    the goal. *)
Ltac shake_paths w video_path output_path threshold :=
  let v := fresh "v" in
  let Hsrc := fresh "Hsrc" in
  let Hfr := fresh "Hfr" in
  let f0 := fresh "f0" in
  let rest := fresh "rest" in
  let l := fresh "l" in
  let Hl := fresh "Hl" in
  destruct (source w video_path) as [v|] eqn:Hsrc;
  [ destruct (video_frames v) as [|f0 rest] eqn:Hfr;
    [ rewrite (shake_run_empty w video_path output_path threshold v
                 Hsrc Hfr)
    | destruct (shake_run_frames w video_path output_path threshold v
                  f0 rest Hsrc Hfr) as (l & Hl & ->) ]
  | rewrite (shake_run_closed w video_path output_path threshold Hsrc) ].

(** C7. On one video, the shake events produced with the larger of two
    thresholds are a subset (indeed a subsequence) of those produced with
    the smaller one. *)
Theorem shake_threshold_monotone w video_path output_path t1 t2 :
  PyFloat.lt t1 t2 = true ->
  let produced t :=
    events_of (fst (detect_camera_shake video_path output_path t w)) in
  produced t2 ⊆ produced t1 ∧ sublist (produced t2) (produced t1).
Proof.
  intros Hlt produced.
  assert (Hsub : sublist (produced t2) (produced t1)).
  { subst produced. simpl.
    shake_paths w video_path output_path t2;
      [apply sublist_nil_l| |apply sublist_nil_l].
    destruct (shake_run_frames w video_path output_path t1 v f0 rest
                Hsrc Hfr) as (l1 & _ & ->).
    pose proof (shake_scan_mono (video_fps v) t1 t2 rest (cvtColor f0) 1
                  Hlt) as Hmono.
    unfold loop_outcome. destruct (PyFloat.is_zero (video_fps v)).
    - destruct (shake_scan _ t2 _ _ _) as [|e2 s2];
        [|apply sublist_nil_l].
      destruct (decide (output_path ∈ locked w)); apply sublist_nil_l.
    - simpl. destruct (decide (output_path ∈ locked w)); simpl;
        [apply sublist_nil_l|done]. }
  split; [by apply sublist_subseteq|done].
Qed.

(** ** Running twice *)

Lemma source_agree w1 w2 video_path :
  fs w1 !! video_path = fs w2 !! video_path ->
  source w1 video_path = source w2 video_path.
Proof. unfold source. by intros ->. Qed.

Lemma shake_run_locked w video_path output_path threshold :
  locked (snd (detect_camera_shake video_path output_path threshold w))
    = locked w.
Proof.
  shake_paths w video_path output_path threshold; try done.
  destruct (loop_outcome _ _ _); [|done].
  by destruct (decide (output_path ∈ locked w)).
Qed.

(** The outcome and the report depend on the world only through the video
    stored at the input path and the writability of the output path. *)
Lemma shake_same_input w1 w2 video_path output_path threshold :
  source w1 video_path = source w2 video_path ->
  (output_path ∈ locked w1 ↔ output_path ∈ locked w2) ->
  let r1 := detect_camera_shake video_path output_path threshold w1 in
  let r2 := detect_camera_shake video_path output_path threshold w2 in
  fst r1 = fst r2 ∧
  ((fs (snd r1) = fs w1 ∧ fs (snd r2) = fs w2) ∨
   ∃ doc, fs (snd r1) = <[output_path := JsonFile doc]> (fs w1) ∧
          fs (snd r2) = <[output_path := JsonFile doc]> (fs w2)).
Proof.
  intros Hsame Hlock r1 r2. subst r1 r2.
  shake_paths w1 video_path output_path threshold.
  - rewrite (shake_run_empty w2 video_path output_path threshold v);
      [|by rewrite <- Hsame|done]. split; [done|by left].
  - destruct (shake_run_frames w2 video_path output_path threshold v
                f0 rest) as (l2 & _ & ->); [by rewrite <- Hsame|done|].
    destruct (loop_outcome _ _ _) as [evs|e]; [|split; [done|by left]].
    destruct (decide (output_path ∈ locked w1)) as [Hin|Hout].
    + rewrite decide_True by tauto. split; [done|by left].
    + rewrite decide_False by tauto. split; [done|]. right. by eexists.
  - rewrite (shake_run_closed w2 video_path output_path threshold);
      [|by rewrite <- Hsame]. split; [done|by left].
Qed.

(** The report never lands on another path than the output path. *)
Lemma shake_run_keeps_input w video_path output_path threshold :
  video_path ≠ output_path ->
  fs (snd (detect_camera_shake video_path output_path threshold w))
    !! video_path = fs w !! video_path.
Proof.
  intros Hne.
  shake_paths w video_path output_path threshold; try done.
  destruct (loop_outcome _ _ _); [|done].
  destruct (decide (output_path ∈ locked w)); [done|].
  simpl. by rewrite lookup_insert_ne.
Qed.

(** C8. Running shake detection a second time with the same arguments,
    in the world the first run left behind and with the video at the
    input path unchanged, gives the same outcome, hence the same sequence
    of shake events, and leaves the same report at the output path. *)
Theorem shake_rerun_identical w video_path output_path threshold :
  let first := detect_camera_shake video_path output_path threshold w in
  let second :=
    detect_camera_shake video_path output_path threshold (snd first) in
  fs (snd first) !! video_path = fs w !! video_path ->
  fst second = fst first ∧
  events_of (fst second) = events_of (fst first) ∧
  fs (snd second) !! output_path = fs (snd first) !! output_path.
Proof.
  intros first second Hsame.
  destruct (shake_same_input w (snd first) video_path output_path threshold)
    as (Hfst & Hfs).
  { symmetry. by apply source_agree. }
  { subst first. by rewrite shake_run_locked. }
  fold first in Hfst, Hfs. fold second in Hfst, Hfs.
  split; [done|]. split; [by rewrite Hfst|].
  destruct Hfs as [(_ & ->)|(doc & -> & ->)]; [done|].
  by rewrite lookup_insert_eq, lookup_insert_eq.
Qed.

(** ** The report *)

Lemma shake_write_is_report w video_path output_path threshold p doc :
  let run := detect_camera_shake video_path output_path threshold w in
  FileWrite p doc ∈ new_log w (snd run) ->
  p = output_path ∧
  ∃ evs, fst run = Returned evs ∧ doc = shake_report video_path evs ∧
         fs (snd run) !! output_path = Some (JsonFile doc).
Proof.
  intros run. subst run.
  shake_paths w video_path output_path threshold; simpl.
  - rewrite new_log_add_log by done. intros Hin. in_log Hin.
  - destruct (loop_outcome _ _ _) as [evs|e]; simpl.
    + destruct (decide (output_path ∈ locked w)); simpl;
        rewrite new_log_add_log by done; intros Hin; in_log Hin.
      injection Hin as -> ->. split; [done|]. exists evs.
      split; [done|]. split; [done|]. apply lookup_insert_eq.
    + rewrite new_log_add_log by done. intros Hin. in_log Hin.
  - rewrite new_log_add_log by done. intros Hin. in_log Hin.
Qed.

(** The ways through [detect_faces_objects], as one case split. *)
Ltac detect_paths w video_path output_path cascade_type :=
  let v := fresh "v" in
  let Hsrc := fresh "Hsrc" in
  let Hct := fresh "Hct" in
  let cp := fresh "cascade_path" in
  let l := fresh "l" in
  let Hl := fresh "Hl" in
  destruct (source w video_path) as [v|] eqn:Hsrc;
  [ destruct (cascade_path_of cascade_type) as [cp|] eqn:Hct;
    [ destruct (detect_run_known w video_path output_path cascade_type v
                  cp Hsrc Hct) as (l & Hl & ->)
    | rewrite (detect_run_unknown w video_path output_path cascade_type v
                 Hsrc Hct) ]
  | rewrite (detect_run_closed w video_path output_path cascade_type Hsrc) ].

Lemma detect_write_is_report w video_path output_path cascade_type p doc :
  let run := detect_faces_objects video_path output_path cascade_type w in
  FileWrite p doc ∈ new_log w (snd run) ->
  p = output_path ∧
  ∃ evs, fst run = Returned evs ∧
         doc = detection_report video_path cascade_type evs ∧
         fs (snd run) !! output_path = Some (JsonFile doc).
Proof.
  intros run. subst run.
  detect_paths w video_path output_path cascade_type; simpl.
  - destruct (loop_outcome _ _ _) as [evs|e]; simpl.
    + destruct (decide (output_path ∈ locked w)); simpl;
        rewrite new_log_add_log by done; intros Hin; in_log Hin.
      injection Hin as -> ->. split; [done|]. exists evs.
      split; [done|]. split; [done|]. apply lookup_insert_eq.
    + rewrite new_log_add_log by done. intros Hin. in_log Hin.
  - rewrite new_log_add_log by done. intros Hin. in_log Hin.
  - rewrite new_log_add_log by done. intros Hin. in_log Hin.
Qed.

(** C9. When a run writes a report, the operation returns a list, the
    report's event field is the serialization of exactly that list, item
    by item and in order, and the report's count field is its length;
    this holds for shake detection ([shake_events], [total_events]) and
    for face/object detection ([detections],
    [total_frames_with_detections]). *)
Theorem report_serializes_returned_list w video_path output_path :
  (∀ threshold p doc,
     let run := detect_camera_shake video_path output_path threshold w in
     FileWrite p doc ∈ new_log w (snd run) ->
     ∃ evs, fst run = Returned evs ∧
       json_get "shake_events" doc
         = Some (JList (ShakeEvent.to_json <$> evs)) ∧
       json_get "total_events" doc = Some (JInt (len evs))) ∧
  (∀ cascade_type p doc,
     let run :=
       detect_faces_objects video_path output_path cascade_type w in
     FileWrite p doc ∈ new_log w (snd run) ->
     ∃ evs, fst run = Returned evs ∧
       json_get "detections" doc
         = Some (JList (DetectionEvent.to_json <$> evs)) ∧
       json_get "total_frames_with_detections" doc
         = Some (JInt (len evs))).
Proof.
  split.
  - intros threshold p doc run Hin.
    apply shake_write_is_report in Hin as (_ & evs & Hrun & -> & _).
    exists evs. by split.
  - intros cascade_type p doc run Hin.
    apply detect_write_is_report in Hin as (_ & evs & Hrun & -> & _).
    exists evs. by split.
Qed.

(** ** The timestamp division *)

Lemma shake_spec_nonempty fps threshold frames i prev cur :
  frames !! i = Some prev -> frames !! S i = Some cur ->
  PyFloat.gt (flow_mean (cvtColor prev) (cvtColor cur)) threshold = true ->
  shake_spec fps threshold frames ≠ [].
Proof.
  intros Hprev Hcur Hgt Hnil.
  assert (Hin : shake_event fps (Z.of_nat (S i))
                  (flow_mean (cvtColor prev) (cvtColor cur))
                ∈ shake_spec fps threshold frames).
  { apply elem_of_shake_spec. exists (S i). split.
    - apply lookup_lt_Some in Hcur. lia.
    - unfold shake_at. replace (S i - 1)%nat with i by lia.
      rewrite Hprev, Hcur. simpl. by rewrite Hgt. }
  rewrite Hnil in Hin. by apply elem_of_nil in Hin.
Qed.

Lemma detect_spec_nonempty fps cascade_path frames i frame :
  frames !! i = Some frame ->
  detectMultiScale cascade_path (cvtColor frame) ≠ [] ->
  detect_spec fps cascade_path frames ≠ [].
Proof.
  intros Hframe Hboxes Hnil.
  assert (Hin : detection_event fps (Z.of_nat i)
                  (detectMultiScale cascade_path (cvtColor frame))
                ∈ detect_spec fps cascade_path frames).
  { apply elem_of_detect_spec. exists i. split.
    - by apply lookup_lt_Some in Hframe.
    - unfold detection_at. rewrite Hframe. simpl.
      by destruct (detectMultiScale cascade_path (cvtColor frame)). }
  rewrite Hnil in Hin. by apply elem_of_nil in Hin.
Qed.

Lemma loop_outcome_zero_nonempty {E} fps (new : list E) :
  PyFloat.is_zero fps = true -> new ≠ [] ->
  loop_outcome fps [] new = Raised ZeroDivisionError.
Proof. unfold loop_outcome. intros ->. by destruct new. Qed.

(** C10. The division [frame_index / fps] has no guard of its own.  When
    the source reports [fps > 0], neither operation raises
    ZeroDivisionError, so every timestamp is the quotient.  When the
    source reports [fps = 0], shake detection raises ZeroDivisionError as
    soon as one pair of frames exceeds the threshold, and detection as
    soon as one frame has a box, instead of returning a result. *)
Theorem timestamp_division_unguarded w video_path output_path v :
  source w video_path = Some v ->
  (PyFloat.gt (video_fps v) PyFloat.zero = true ->
   (∀ threshold,
      fst (detect_camera_shake video_path output_path threshold w)
        ≠ Raised ZeroDivisionError) ∧
   (∀ cascade_type,
      fst (detect_faces_objects video_path output_path cascade_type w)
        ≠ Raised ZeroDivisionError)) ∧
  (PyFloat.is_zero (video_fps v) = true ->
   (∀ threshold i prev cur,
      video_frames v !! i = Some prev ->
      video_frames v !! S i = Some cur ->
      PyFloat.gt (flow_mean (cvtColor prev) (cvtColor cur)) threshold
        = true ->
      fst (detect_camera_shake video_path output_path threshold w)
        = Raised ZeroDivisionError) ∧
   (∀ cascade_type cascade_path i frame,
      cascade_path_of cascade_type = Some cascade_path ->
      video_frames v !! i = Some frame ->
      detectMultiScale cascade_path (cvtColor frame) ≠ [] ->
      fst (detect_faces_objects video_path output_path cascade_type w)
        = Raised ZeroDivisionError)).
Proof.
  intros Hsrc. split.
  - intros Hpos. apply float_positive_nonzero in Hpos. split.
    + intros threshold.
      destruct (video_frames v) as [|f0 rest] eqn:Hfr.
      * by rewrite (shake_run_empty _ _ _ _ _ Hsrc Hfr).
      * destruct (shake_run_frames w video_path output_path threshold v
                    f0 rest Hsrc Hfr) as (l & _ & ->).
        rewrite loop_outcome_nonzero by done.
        by destruct (decide (output_path ∈ locked w)).
    + intros cascade_type.
      destruct (cascade_path_of cascade_type) as [cp|] eqn:Hct.
      * destruct (detect_run_known w video_path output_path cascade_type
                    v cp Hsrc Hct) as (l & _ & ->).
        rewrite loop_outcome_nonzero by done. simpl.
        by destruct (decide (output_path ∈ locked w)).
      * by rewrite (detect_run_unknown _ _ _ _ _ Hsrc Hct).
  - intros Hzero. split.
    + intros threshold i prev cur Hprev Hcur Hgt.
      destruct (video_frames v) as [|f0 rest] eqn:Hfr; [done|].
      destruct (shake_run_frames w video_path output_path threshold v
                  f0 rest Hsrc Hfr) as (l & _ & ->).
      rewrite loop_outcome_zero_nonempty; [done|done|].
      rewrite shake_scan_spec.
      by apply (shake_spec_nonempty _ _ _ i prev cur).
    + intros cascade_type cp i frame Hct Hframe Hboxes.
      destruct (detect_run_known w video_path output_path cascade_type
                  v cp Hsrc Hct) as (l & _ & ->).
      rewrite loop_outcome_zero_nonempty; [done|done|].
      rewrite detect_scan_spec.
      by apply (detect_spec_nonempty _ _ _ i frame).
Qed.

(** ** Face and object detection *)

Lemma cascade_path_of_unknown cascade_type :
  cascade_type ≠ "face" -> cascade_type ≠ "object" ->
  cascade_path_of cascade_type = None.
Proof.
  intros Hface Hobject. unfold cascade_path_of.
  apply String.eqb_neq in Hface, Hobject. by rewrite Hface, Hobject.
Qed.

Lemma no_write_attempt l :
  Forall (λ a, is_write_attempt a = false) l ->
  ¬ ∃ a, a ∈ l ∧ is_write_attempt a = true.
Proof.
  rewrite Forall_forall. intros Hall (a & Hin & Ha).
  apply Hall in Hin. congruence.
Qed.

(** C4. With a profile that is neither [face] nor [object], detection
    fails before any frame is read: it returns the empty list, reads no
    frame from the source, attempts no report and leaves every file as it
    was; on a source that opened, the failure is reported as an unknown
    cascade type. *)
Theorem unknown_profile_reads_nothing w video_path output_path cascade_type :
  cascade_type ≠ "face" -> cascade_type ≠ "object" ->
  let run := detect_faces_objects video_path output_path cascade_type w in
  fst run = Returned [] ∧
  frames_read w (snd run) = [] ∧
  ¬ report_attempted w (snd run) ∧
  fs (snd run) = fs w ∧
  (is_Some (source w video_path) ->
   new_log w (snd run) =
     [CapOpen video_path true;
      Print ("Error: Unknown cascade type '" +:+ cascade_type +:+ "'")]).
Proof.
  intros Hface Hobject run. subst run.
  pose proof (cascade_path_of_unknown _ Hface Hobject) as Hct.
  unfold frames_read, report_attempted.
  destruct (source w video_path) as [v|] eqn:Hsrc.
  - rewrite (detect_run_unknown _ _ _ _ _ Hsrc Hct). simpl.
    rewrite new_log_add_log by done.
    split; [done|]. split; [done|]. split; [|done].
    apply no_write_attempt. by repeat constructor.
  - rewrite (detect_run_closed _ _ _ _ Hsrc). simpl.
    rewrite new_log_add_log by done.
    split; [done|]. split; [done|]. split; [|split; [done|]].
    + apply no_write_attempt. by repeat constructor.
    + by intros [? ?].
Qed.

Lemma length_detect_scan fps cascade_path pending frame_count :
  length (detect_scan fps cascade_path pending frame_count) =
  length (filter (λ frame, detectMultiScale cascade_path (cvtColor frame)
                             ≠ []) pending).
Proof.
  revert frame_count. induction pending as [|frame rest IH];
    intros frame_count; [done|].
  simpl. rewrite length_app, IH, filter_cons.
  destruct (detectMultiScale cascade_path (cvtColor frame)) as [|b bs].
  - by rewrite decide_False by auto.
  - by rewrite decide_True by done.
Qed.

Lemma detect_run_ok w video_path output_path cascade_type cascade_path v :
  source w video_path = Some v ->
  cascade_path_of cascade_type = Some cascade_path ->
  PyFloat.is_zero (video_fps v) = false ->
  output_path ∉ locked w ->
  let evs := detect_spec (video_fps v) cascade_path (video_frames v) in
  let doc := detection_report video_path cascade_type evs in
  ∃ l, reads_only l ∧
    detect_faces_objects video_path output_path cascade_type w =
      (Returned evs,
       add_log (write_file w output_path doc)
         (CapOpen video_path true :: l
            ++ [CapRelease; FileWrite output_path doc])).
Proof.
  intros Hsrc Hct Hfps Hout evs doc. subst evs doc.
  destruct (detect_run_known w video_path output_path cascade_type v
              cascade_path Hsrc Hct) as (l & Hl & Heq).
  exists l. split; [done|]. rewrite Heq.
  rewrite loop_outcome_nonzero by done. simpl.
  rewrite decide_False by done. by rewrite detect_scan_spec.
Qed.

(** C5. On a source that opens, with a known profile, a nonzero frame
    rate and a writable report path: the returned events with frame index
    [i] are exactly one event when the classifier returned at least one
    box for frame [i] and none otherwise; that event's count is the number
    of boxes and its locations are the boxes in classifier order; and the
    number of events, which the report stores as
    [total_frames_with_detections], is the number of frames with at least
    one box. *)
Theorem detection_event_iff_boxes w video_path output_path cascade_type
    cascade_path v :
  source w video_path = Some v ->
  cascade_path_of cascade_type = Some cascade_path ->
  PyFloat.is_zero (video_fps v) = false ->
  output_path ∉ locked w ->
  let run := detect_faces_objects video_path output_path cascade_type w in
  let boxes_of frame := detectMultiScale cascade_path (cvtColor frame) in
  let with_boxes :=
    filter (λ frame, boxes_of frame ≠ []) (video_frames v) in
  ∃ evs doc,
    fst run = Returned evs ∧
    (∀ (i : nat) frame,
       video_frames v !! i = Some frame ->
       filter (λ e, DetectionEvent.frame e = Z.of_nat i) evs =
         match boxes_of frame with
         | [] => []
         | boxes =>
             [DetectionEvent.mk (Z.of_nat i)
                (PyFloat.div (PyFloat.of_int (Z.of_nat i)) (video_fps v))
                (len boxes) boxes]
         end) ∧
    len evs = len with_boxes ∧
    fs (snd run) !! output_path = Some (JsonFile doc) ∧
    json_get "total_frames_with_detections" doc
      = Some (JInt (len with_boxes)).
Proof.
  intros Hsrc Hct Hfps Hout run boxes_of with_boxes.
  destruct (detect_run_ok w video_path output_path cascade_type
              cascade_path v Hsrc Hct Hfps Hout) as (l & _ & Heq).
  subst run. rewrite Heq. simpl.
  assert (Hcount :
            len (detect_spec (video_fps v) cascade_path (video_frames v))
            = len with_boxes).
  { subst with_boxes boxes_of. unfold len.
    by rewrite <- detect_scan_spec, length_detect_scan. }
  eexists _, _. split; [done|]. split; [|split; [done|split]].
  - intros i frame Hframe. unfold detect_spec.
    rewrite (filter_omap_seq _ DetectionEvent.frame)
      by apply detection_at_frame.
    apply lookup_lt_Some in Hframe as Hlt.
    rewrite decide_True by lia.
    unfold detection_at. rewrite Hframe. simpl. fold (boxes_of frame).
    by destruct (boxes_of frame).
  - apply lookup_insert_eq.
  - simpl. by rewrite Hcount.
Qed.

(** ** The program *)

Lemma output_of_run args w : ∃ out, output_of args w = (Returned out, w).
Proof.
  unfold output_of. destruct (output args) as [o|].
  - destruct (String.eqb o ""); by eexists.
  - by eexists.
Qed.

Lemma isfile_source w video_path v :
  source w video_path = Some v -> isfile video_path w = (Returned true, w).
Proof.
  unfold source, isfile. intros Hsrc.
  destruct (fs w !! video_path) as [f|]; [|done].
  by rewrite bool_decide_eq_true_2.
Qed.

(** On a source that opens with a first frame and a nonzero frame rate,
    the last effect of shake detection is the attempt to write. *)
Lemma shake_attempts w video_path output_path threshold v :
  source w video_path = Some v ->
  PyFloat.is_zero (video_fps v) = false ->
  video_frames v ≠ [] ->
  let run := detect_camera_shake video_path output_path threshold w in
  ∃ l a, log (snd run) = log w ++ l ++ [a] ∧ is_write_attempt a = true.
Proof.
  intros Hsrc Hfps Hne run. subst run.
  destruct (video_frames v) as [|f0 rest] eqn:Hfr; [done|].
  destruct (shake_run_frames w video_path output_path threshold v f0 rest
              Hsrc Hfr) as (l & _ & ->).
  rewrite loop_outcome_nonzero by done.
  destruct (decide (output_path ∈ locked w)); simpl.
  - exists (CapOpen video_path true :: CapRead true :: l ++ [CapRelease]),
      (FileWriteFailed output_path).
    split; [|done]. simpl. by rewrite <- app_assoc.
  - eexists (CapOpen video_path true :: CapRead true :: l ++ [CapRelease]),
      (FileWrite output_path _).
    split; [|done]. simpl. by rewrite <- app_assoc.
Qed.

Lemma detect_attempts w video_path output_path cascade_type cascade_path v :
  source w video_path = Some v ->
  cascade_path_of cascade_type = Some cascade_path ->
  PyFloat.is_zero (video_fps v) = false ->
  let run := detect_faces_objects video_path output_path cascade_type w in
  ∃ l a, log (snd run) = log w ++ l ++ [a] ∧ is_write_attempt a = true.
Proof.
  intros Hsrc Hct Hfps run. subst run.
  destruct (detect_run_known w video_path output_path cascade_type v
              cascade_path Hsrc Hct) as (l & _ & ->).
  rewrite loop_outcome_nonzero by done. simpl.
  destruct (decide (output_path ∈ locked w)); simpl.
  - exists (CapOpen video_path true :: l ++ [CapRelease]),
      (FileWriteFailed output_path).
    split; [|done]. simpl. by rewrite <- app_assoc.
  - eexists (CapOpen video_path true :: l ++ [CapRelease]),
      (FileWrite output_path _).
    split; [|done]. simpl. by rewrite <- app_assoc.
Qed.

Lemma report_attempted_intro w w' l1 a l2 :
  log w' = log w ++ l1 ++ a :: l2 -> is_write_attempt a = true ->
  report_attempted w w'.
Proof.
  intros Hlog Ha. exists a. split; [|done].
  unfold new_log. rewrite Hlog, drop_app_length.
  apply elem_of_app. right. by left.
Qed.

(** What follows an operation in [main]: its effects stay in the log. *)
Lemma bind_print_log {A} (m : M A) (msg : A -> string) w l a l2 :
  log (snd (m w)) = log w ++ l ++ a :: l2 ∧ is_write_attempt a = true ->
  ∃ l3, log (snd (bind m (λ x, print (msg x)) w)) = log w ++ l ++ a :: l3
        ∧ is_write_attempt a = true.
Proof.
  unfold bind. destruct (m w) as [[x|e] w']; simpl; intros [-> Ha].
  - exists (l2 ++ [Print (msg x)]). by rewrite <- !app_assoc.
  - by exists l2.
Qed.

Lemma bind_returned {A B} (m : M A) (k : A -> M B) w a w' :
  m w = (Returned a, w') -> bind m k w = k a w'.
Proof. unfold bind. by intros ->. Qed.

(** C3 (amended). For every run whose input file opens as a video with a
    nonzero frame rate and, in shake mode, yields a first frame, the
    program attempts to write a report, whatever the number of events
    found and whether or not the write succeeds. *)
Theorem main_attempts_report w args v :
  source w (video args) = Some v ->
  PyFloat.is_zero (video_fps v) = false ->
  (mode args = shake -> video_frames v ≠ []) ->
  report_attempted w (snd (main args w)).
Proof.
  intros Hsrc Hfps Hne. unfold main.
  rewrite (bind_returned _ _ _ _ _ (isfile_source _ _ _ Hsrc)).
  change (negb true) with false. cbv iota.
  destruct (output_of_run args w) as (out & Hout).
  rewrite (bind_returned _ _ _ _ _ Hout).
  rewrite (bind_returned (print _) _ _ tt _ eq_refl).
  rewrite (bind_returned (print _) _ _ tt _ eq_refl).
  rewrite (bind_returned (print _) _ _ tt _ eq_refl).
  rewrite !add_log_app. simpl app.
  match goal with
  | |- report_attempted w (snd (bind ?m _ ?w3)) =>
      set (started := w3);
      assert (Hrun : ∃ l a l2,
                log (snd (m started)) = log started ++ l ++ a :: l2
                ∧ is_write_attempt a = true)
  end.
  { destruct (mode args) eqn:Hmode.
    - destruct (shake_attempts started (video args) out
                  (threshold args) v Hsrc Hfps (Hne eq_refl))
        as (l & a & Hlog & Ha).
      exists l, a. eapply bind_print_log. split; [exact Hlog|exact Ha].
    - destruct (detect_attempts started (video args) out "face"
                  _ v Hsrc eq_refl Hfps) as (l & a & Hlog & Ha).
      exists l, a. eapply bind_print_log. split; [exact Hlog|exact Ha].
    - destruct (detect_attempts started (video args) out "object"
                  _ v Hsrc eq_refl Hfps) as (l & a & Hlog & Ha).
      exists l, a. eapply bind_print_log. split; [exact Hlog|exact Ha]. }
  destruct Hrun as (l & a & l2 & Hrun).
  destruct (bind_print_log _ (λ _, "Results saved to: " +:+ out)
              _ _ _ _ Hrun) as (l3 & Hlog3 & Ha).
  eapply (report_attempted_intro w _ ([_; _; _] ++ l) a l3); [|exact Ha].
  rewrite Hlog3. subst started. simpl log. rewrite <- !app_assoc.
  reflexivity.
Qed.
(** ** Releasing the capture *)

(** The path that runs the loop to its end releases the capture before it
    writes the report. *)
Lemma shake_releases_when_complete w video_path output_path threshold v :
  source w video_path = Some v ->
  video_frames v ≠ [] ->
  PyFloat.is_zero (video_fps v) = false ->
  released w
    (snd (detect_camera_shake video_path output_path threshold w)).
Proof.
  intros Hsrc Hne Hfps. unfold released.
  destruct (video_frames v) as [|f0 rest] eqn:Hfr; [done|].
  destruct (shake_run_frames w video_path output_path threshold v f0 rest
              Hsrc Hfr) as (l & _ & ->).
  rewrite loop_outcome_nonzero by done.
  destruct (decide (output_path ∈ locked w)); simpl;
    rewrite new_log_add_log by done;
    rewrite !elem_of_cons, elem_of_app, !elem_of_cons; tauto.
Qed.

Lemma detect_releases_when_complete w video_path output_path cascade_type
    cascade_path v :
  source w video_path = Some v ->
  cascade_path_of cascade_type = Some cascade_path ->
  PyFloat.is_zero (video_fps v) = false ->
  released w
    (snd (detect_faces_objects video_path output_path cascade_type w)).
Proof.
  intros Hsrc Hct Hfps. unfold released.
  destruct (detect_run_known w video_path output_path cascade_type v
              cascade_path Hsrc Hct) as (l & _ & ->).
  rewrite loop_outcome_nonzero by done. simpl.
  destruct (decide (output_path ∈ locked w)); simpl;
    rewrite new_log_add_log by done;
    rewrite !elem_of_cons, elem_of_app, !elem_of_cons; tauto.
Qed.

(** The two early returns after a successful open leave it unreleased. *)
Lemma shake_empty_source_unreleased w video_path output_path threshold v :
  source w video_path = Some v -> video_frames v = [] ->
  ¬ released w
      (snd (detect_camera_shake video_path output_path threshold w)).
Proof.
  intros Hsrc Hfr. rewrite (shake_run_empty _ _ _ _ _ Hsrc Hfr).
  unfold released. simpl. rewrite new_log_add_log by done.
  intros Hin. in_log Hin.
Qed.

Lemma detect_unknown_profile_unreleased w video_path output_path
    cascade_type v :
  source w video_path = Some v -> cascade_path_of cascade_type = None ->
  ¬ released w
      (snd (detect_faces_objects video_path output_path cascade_type w)).
Proof.
  intros Hsrc Hct. rewrite (detect_run_unknown _ _ _ _ _ Hsrc Hct).
  unfold released. simpl. rewrite new_log_add_log by done.
  intros Hin. in_log Hin.
Qed.

(** * Further properties of the two operations *)

(** ** Every returned event stands for something the source showed *)

Lemma loop_outcome_returned_inv {E} fps (new evs : list E) :
  loop_outcome fps [] new = Returned evs ->
  evs = new ∧ (PyFloat.is_zero fps = false ∨ new = []).
Proof.
  unfold loop_outcome. destruct (PyFloat.is_zero fps).
  - destruct new; [|done]. intros [= <-]. split; [done|by right].
  - intros [= <-]. split; [done|by left].
Qed.

Lemma shake_at_inv fps threshold frames i e :
  shake_at fps threshold frames i = Some e ->
  ∃ prev cur,
    frames !! (i - 1)%nat = Some prev ∧ frames !! i = Some cur ∧
    PyFloat.gt (flow_mean (cvtColor prev) (cvtColor cur)) threshold = true ∧
    e = shake_event fps (Z.of_nat i)
          (flow_mean (cvtColor prev) (cvtColor cur)).
Proof.
  unfold shake_at. intros He.
  destruct (frames !! (i - 1)%nat) as [prev|]; simpl in He; [|done].
  destruct (frames !! i) as [cur|]; simpl in He; [|done].
  destruct (PyFloat.gt _ threshold) eqn:Hgt; [|done].
  injection He as <-. by exists prev, cur.
Qed.

Lemma detection_at_inv fps cascade_path frames i e :
  detection_at fps cascade_path frames i = Some e ->
  ∃ img,
    frames !! i = Some img ∧
    detectMultiScale cascade_path (cvtColor img) ≠ [] ∧
    e = detection_event fps (Z.of_nat i)
          (detectMultiScale cascade_path (cvtColor img)).
Proof.
  unfold detection_at. intros He.
  destruct (frames !! i) as [img|]; simpl in He; [|done].
  destruct (detectMultiScale cascade_path (cvtColor img)) as [|b bs] eqn:Hb;
    [done|].
  injection He as <-. exists img. by rewrite Hb.
Qed.

(** What shake detection returns on a source that opens. *)
Lemma shake_returned_spec w video_path output_path threshold v evs :
  source w video_path = Some v ->
  fst (detect_camera_shake video_path output_path threshold w)
    = Returned evs ->
  evs = shake_spec (video_fps v) threshold (video_frames v) ∧
  (PyFloat.is_zero (video_fps v) = false ∨ evs = []).
Proof.
  intros Hsrc Hrun.
  destruct (video_frames v) as [|f0 rest] eqn:Hfr.
  - rewrite (shake_run_empty _ _ _ _ _ Hsrc Hfr) in Hrun.
    injection Hrun as <-. split; [done|by right].
  - destruct (shake_run_frames w video_path output_path threshold v f0 rest
                Hsrc Hfr) as (l & _ & Heq).
    rewrite Heq in Hrun. clear Heq.
    destruct (loop_outcome _ _ _) as [evs'|e] eqn:Hloop; [|done].
    destruct (decide (output_path ∈ locked w)); [done|].
    injection Hrun as ->.
    apply loop_outcome_returned_inv in Hloop as [-> Hz].
    by rewrite shake_scan_spec in *.
Qed.

Lemma detect_returned_spec w video_path output_path cascade_type
    cascade_path v evs :
  source w video_path = Some v ->
  cascade_path_of cascade_type = Some cascade_path ->
  fst (detect_faces_objects video_path output_path cascade_type w)
    = Returned evs ->
  evs = detect_spec (video_fps v) cascade_path (video_frames v) ∧
  (PyFloat.is_zero (video_fps v) = false ∨ evs = []).
Proof.
  intros Hsrc Hct Hrun.
  destruct (detect_run_known w video_path output_path cascade_type v
              cascade_path Hsrc Hct) as (l & _ & Heq).
  rewrite Heq in Hrun. clear Heq.
  destruct (loop_outcome _ _ _) as [evs'|e] eqn:Hloop; [|done].
  simpl in Hrun. destruct (decide (output_path ∈ locked w)); [done|].
  injection Hrun as ->.
  apply loop_outcome_returned_inv in Hloop as [-> Hz].
  by rewrite detect_scan_spec in *.
Qed.

(** X1. Every shake event that the operation returns comes from a pair of
    consecutive frames of the video: its frame index is the position of the
    second frame, its magnitude is the mean of that pair and exceeds the
    threshold, its timestamp is the index divided by the frame rate, and
    the frame rate is not zero. *)
Theorem shake_events_sound w video_path output_path threshold v evs e :
  source w video_path = Some v ->
  fst (detect_camera_shake video_path output_path threshold w)
    = Returned evs ->
  e ∈ evs ->
  PyFloat.is_zero (video_fps v) = false ∧
  PyFloat.gt (ShakeEvent.magnitude e) threshold = true ∧
  ShakeEvent.timestamp e =
    PyFloat.div (PyFloat.of_int (ShakeEvent.frame e)) (video_fps v) ∧
  ∃ (i : nat) prev cur,
    ShakeEvent.frame e = Z.of_nat (S i) ∧
    video_frames v !! i = Some prev ∧
    video_frames v !! S i = Some cur ∧
    ShakeEvent.magnitude e = flow_mean (cvtColor prev) (cvtColor cur).
Proof.
  intros Hsrc Hrun Hin.
  destruct (shake_returned_spec _ _ _ _ _ _ Hsrc Hrun) as [-> Hz].
  split.
  { destruct Hz as [Hz|Hnil]; [done|].
    rewrite Hnil in Hin. by apply elem_of_nil in Hin. }
  apply elem_of_shake_spec in Hin as (i & Hi & Hat).
  apply shake_at_inv in Hat as (prev & cur & Hprev & Hcur & Hgt & ->).
  simpl. split; [done|]. split; [done|].
  destruct i as [|i]; [lia|].
  exists i, prev, cur. replace (S i - 1)%nat with i in Hprev by lia.
  done.
Qed.

(** X2. Every detection event that the operation returns comes from a
    frame of the video: its frame index is the 0-based position of the
    frame, its locations are the boxes the classifier returned for it, its
    count is their number and at least 1, its timestamp is the index
    divided by the frame rate, and the frame rate is not zero. *)
Theorem detection_events_sound w video_path output_path cascade_type
    cascade_path v evs e :
  source w video_path = Some v ->
  cascade_path_of cascade_type = Some cascade_path ->
  fst (detect_faces_objects video_path output_path cascade_type w)
    = Returned evs ->
  e ∈ evs ->
  PyFloat.is_zero (video_fps v) = false ∧
  1 <= DetectionEvent.count e ∧
  DetectionEvent.count e = len (DetectionEvent.locations e) ∧
  DetectionEvent.timestamp e =
    PyFloat.div (PyFloat.of_int (DetectionEvent.frame e)) (video_fps v) ∧
  ∃ (i : nat) img,
    DetectionEvent.frame e = Z.of_nat i ∧
    video_frames v !! i = Some img ∧
    DetectionEvent.locations e
      = detectMultiScale cascade_path (cvtColor img).
Proof.
  intros Hsrc Hct Hrun Hin.
  destruct (detect_returned_spec _ _ _ _ _ _ _ Hsrc Hct Hrun) as [-> Hz].
  split.
  { destruct Hz as [Hz|Hnil]; [done|].
    rewrite Hnil in Hin. by apply elem_of_nil in Hin. }
  apply elem_of_detect_spec in Hin as (i & Hi & Hat).
  apply detection_at_inv in Hat as (img & Himg & Hboxes & ->).
  simpl. split.
  { unfold len. destruct (detectMultiScale cascade_path (cvtColor img));
      [done|simpl; lia]. }
  split; [done|]. split; [done|]. by exists i, img.
Qed.

(** ** Frame indices of detection events *)

Lemma detect_spec_indices fps cascade_path frames :
  sublist (DetectionEvent.frame <$> detect_spec fps cascade_path frames)
    (seqZ 0 (len frames)).
Proof.
  unfold detect_spec, len. change 0 with (Z.of_nat 0).
  rewrite <- fmap_of_nat_seq.
  apply omap_frames_sublist, detection_at_frame.
Qed.

(** X3. Whenever face/object detection returns, the frame indices of its
    events are strictly increasing and a subsequence of [0 .. N-1], [N]
    being the number of frames of the video: at most one event per frame,
    in source order. *)
Theorem detection_frames_increasing w video_path output_path cascade_type
    evs :
  fst (detect_faces_objects video_path output_path cascade_type w)
    = Returned evs ->
  let indices := DetectionEvent.frame <$> evs in
  StronglySorted Z.lt indices ∧
  sublist indices (seqZ 0 (frame_total w video_path)) ∧
  (length evs <= Z.to_nat (frame_total w video_path))%nat.
Proof.
  intros Hrun indices.
  assert (Hsub : sublist indices (seqZ 0 (frame_total w video_path))).
  { subst indices. destruct (source w video_path) as [v|] eqn:Hsrc.
    - rewrite (frame_total_source _ _ _ Hsrc).
      destruct (cascade_path_of cascade_type) as [cp|] eqn:Hct.
      + destruct (detect_returned_spec _ _ _ _ _ _ _ Hsrc Hct Hrun)
          as [-> _].
        apply detect_spec_indices.
      + rewrite (detect_run_unknown _ _ _ _ _ Hsrc Hct) in Hrun.
        injection Hrun as <-. apply sublist_nil_l.
    - rewrite (detect_run_closed _ _ _ _ Hsrc) in Hrun.
      injection Hrun as <-. apply sublist_nil_l. }
  split; [|split; [done|]].
  - eapply StronglySorted_sublist; [exact Hsub|].
    assert (Hpos : 0 <= frame_total w video_path).
    { unfold frame_total, len.
      destruct (fs w !! video_path) as [[?|?]|]; lia. }
    rewrite <- (Z2Nat.id _ Hpos). apply StronglySorted_seqZ.
  - apply sublist_length in Hsub. subst indices.
    rewrite length_fmap, length_seqZ in Hsub. lia.
Qed.

(** ** Runs that reach the end of the stream *)

Lemma shake_loop_complete fps threshold pending prev_gray frame_count acc w :
  PyFloat.is_zero fps = false
  ∨ shake_scan fps threshold pending prev_gray frame_count = [] ->
  shake_loop fps threshold pending prev_gray frame_count acc w =
    (Returned
       (acc ++ shake_scan fps threshold pending prev_gray frame_count),
     add_log w (all_reads (length pending))).
Proof.
  revert prev_gray frame_count acc w.
  induction pending as [|frame rest IH];
    intros prev_gray frame_count acc w Hok.
  - simpl. by rewrite app_nil_r.
  - simpl in Hok |- *. unfold bind at 1. simpl.
    destruct (PyFloat.gt _ threshold) eqn:Hgt.
    + destruct Hok as [Hz|Hnil]; [|done].
      unfold bind, lift. rewrite truediv_nonzero by done.
      rewrite IH by (by left). rewrite add_log_app.
      unfold shake_event. by rewrite <- app_assoc.
    + rewrite IH by done. by rewrite add_log_app.
Qed.

Lemma detect_loop_complete fps cascade_path pending frame_count acc w :
  PyFloat.is_zero fps = false
  ∨ detect_scan fps cascade_path pending frame_count = [] ->
  detect_loop fps cascade_path pending frame_count acc w =
    (Returned (acc ++ detect_scan fps cascade_path pending frame_count),
     add_log w (all_reads (length pending))).
Proof.
  revert frame_count acc w.
  induction pending as [|frame rest IH]; intros frame_count acc w Hok.
  - simpl. by rewrite app_nil_r.
  - simpl in Hok |- *. unfold bind at 1. simpl.
    destruct (0 <? len _) eqn:Hlen.
    + destruct Hok as [Hz|Hnil]; [|done].
      unfold bind, lift. rewrite truediv_nonzero by done.
      rewrite IH by (by left). rewrite add_log_app.
      unfold detection_event. by rewrite <- app_assoc.
    + rewrite IH by done. by rewrite add_log_app.
Qed.

(** Shake detection on a source with a first frame, when no division can
    fail: every frame is read, the capture is released, and the report is
    written or the write fails. *)
Lemma shake_run_complete w video_path output_path threshold v f0 rest :
  source w video_path = Some v -> video_frames v = f0 :: rest ->
  PyFloat.is_zero (video_fps v) = false
  ∨ shake_spec (video_fps v) threshold (video_frames v) = [] ->
  let evs := shake_spec (video_fps v) threshold (video_frames v) in
  let doc := shake_report video_path evs in
  let before :=
    CapOpen video_path true :: all_reads (length (video_frames v))
      ++ [CapRelease] in
  detect_camera_shake video_path output_path threshold w =
    if decide (output_path ∈ locked w) then
      (Raised OSError, add_log w (before ++ [FileWriteFailed output_path]))
    else
      (Returned evs,
       add_log (write_file w output_path doc)
         (before ++ [FileWrite output_path doc])).
Proof.
  intros Hsrc Hfr Hok evs doc before. subst evs doc before.
  rewrite Hfr in *. rewrite <- shake_scan_spec in *.
  unfold detect_camera_shake, bind at 1.
  rewrite (VideoCapture_opened _ _ _ Hsrc). simpl.
  unfold read; simpl. rewrite Hfr. unfold bind at 1; simpl.
  unfold bind at 1; simpl. rewrite shake_loop_complete by done. simpl.
  unfold bind, dump, release, tell; simpl.
  destruct (decide (output_path ∈ locked w)); simpl; unfold ret, all_reads;
    repeat (rewrite write_file_add_log || rewrite add_log_app);
    simpl; by rewrite <- !app_assoc.
Qed.

Lemma detect_run_complete w video_path output_path cascade_type cascade_path
    v :
  source w video_path = Some v ->
  cascade_path_of cascade_type = Some cascade_path ->
  PyFloat.is_zero (video_fps v) = false
  ∨ detect_spec (video_fps v) cascade_path (video_frames v) = [] ->
  let evs := detect_spec (video_fps v) cascade_path (video_frames v) in
  let doc := detection_report video_path cascade_type evs in
  let before :=
    CapOpen video_path true :: all_reads (length (video_frames v))
      ++ [CapRelease] in
  detect_faces_objects video_path output_path cascade_type w =
    if decide (output_path ∈ locked w) then
      (Raised OSError, add_log w (before ++ [FileWriteFailed output_path]))
    else
      (Returned evs,
       add_log (write_file w output_path doc)
         (before ++ [FileWrite output_path doc])).
Proof.
  intros Hsrc Hct Hok evs doc before. subst evs doc before.
  rewrite <- detect_scan_spec in *.
  unfold detect_faces_objects, bind at 1.
  rewrite (VideoCapture_opened _ _ _ Hsrc). simpl. rewrite Hct.
  unfold bind at 1; simpl. rewrite detect_loop_complete by done. simpl.
  unfold bind, dump, release, tell; simpl.
  destruct (decide (output_path ∈ locked w)); simpl; unfold ret, all_reads;
    repeat (rewrite write_file_add_log || rewrite add_log_app);
    simpl; by rewrite <- !app_assoc.
Qed.

Lemma filter_reads_only l :
  reads_only l -> filter (λ a, is_read a = true) l = l.
Proof.
  unfold reads_only. induction 1 as [|a l Ha Hl IH]; [done|].
  rewrite filter_cons, decide_True by done. by rewrite IH.
Qed.

Lemma reads_only_all_reads n : reads_only (all_reads n).
Proof.
  unfold reads_only, all_reads. apply Forall_app. split.
  - apply Forall_replicate. done.
  - by repeat constructor.
Qed.

Lemma filter_reads_run video_path n tail :
  Forall (λ a, is_read a = false) tail ->
  filter (λ a, is_read a = true)
    (CapOpen video_path true :: all_reads n ++ tail) = all_reads n.
Proof.
  intros Htail. rewrite filter_cons, decide_False by done.
  rewrite filter_app, (filter_reads_only _ (reads_only_all_reads n)).
  rewrite <- (app_nil_r (all_reads n)) at 2. f_equal.
  induction Htail as [|a tail Ha _ IH]; [done|].
  rewrite filter_cons, decide_False; [done|]. by rewrite Ha.
Qed.

(** X4. A run that returns on a source that opens has read the stream
    exactly once: one successful read per frame of the video, in a row,
    followed by the single failed read that ends the stream.  This holds
    for shake detection and, with a known profile, for face/object
    detection. *)
Theorem returning_run_reads_each_frame_once w video_path output_path v :
  source w video_path = Some v ->
  (∀ threshold evs,
     let run := detect_camera_shake video_path output_path threshold w in
     fst run = Returned evs ->
     frames_read w (snd run) = all_reads (length (video_frames v))) ∧
  (∀ cascade_type cascade_path evs,
     let run :=
       detect_faces_objects video_path output_path cascade_type w in
     cascade_path_of cascade_type = Some cascade_path ->
     fst run = Returned evs ->
     frames_read w (snd run) = all_reads (length (video_frames v))).
Proof.
  intros Hsrc. split.
  - intros threshold evs run Hrun. subst run. unfold frames_read.
    destruct (shake_returned_spec _ _ _ _ _ _ Hsrc Hrun) as [-> Hz].
    destruct (video_frames v) as [|f0 rest] eqn:Hfr.
    + rewrite (shake_run_empty _ _ _ _ _ Hsrc Hfr). simpl.
      by rewrite new_log_add_log.
    + rewrite <- Hfr in *.
      rewrite (shake_run_complete _ _ _ _ _ _ _ Hsrc Hfr Hz) in Hrun |- *.
      destruct (decide (output_path ∈ locked w)); [done|]. simpl.
      rewrite new_log_add_log by done. simpl. rewrite <- app_assoc.
      apply filter_reads_run. by repeat constructor.
  - intros cascade_type cascade_path evs run Hct Hrun. subst run.
    unfold frames_read.
    destruct (detect_returned_spec _ _ _ _ _ _ _ Hsrc Hct Hrun) as [-> Hz].
    rewrite (detect_run_complete _ _ _ _ _ _ Hsrc Hct Hz) in Hrun |- *.
    destruct (decide (output_path ∈ locked w)); [done|]. simpl.
    rewrite new_log_add_log by done. simpl. rewrite <- app_assoc.
    apply filter_reads_run. by repeat constructor.
Qed.

(** ** Runs without events *)

Lemma shake_spec_quiet fps threshold frames :
  (∀ (i : nat) prev cur,
     frames !! i = Some prev -> frames !! S i = Some cur ->
     PyFloat.gt (flow_mean (cvtColor prev) (cvtColor cur)) threshold
       = false) ->
  shake_spec fps threshold frames = [].
Proof.
  intros Hquiet.
  destruct (shake_spec fps threshold frames) as [|e evs] eqn:Hspec; [done|].
  assert (Hin : e ∈ shake_spec fps threshold frames)
    by (rewrite Hspec; left).
  apply elem_of_shake_spec in Hin as (i & Hi & Hat).
  apply shake_at_inv in Hat as (prev & cur & Hprev & Hcur & Hgt & _).
  destruct i as [|i]; [lia|].
  replace (S i - 1)%nat with i in Hprev by lia.
  by rewrite (Hquiet i prev cur) in Hgt.
Qed.

Lemma detect_spec_boxless fps cascade_path frames :
  (∀ img, img ∈ frames -> detectMultiScale cascade_path (cvtColor img) = []) ->
  detect_spec fps cascade_path frames = [].
Proof.
  intros Hnone.
  destruct (detect_spec fps cascade_path frames) as [|e evs] eqn:Hspec;
    [done|].
  assert (Hin : e ∈ detect_spec fps cascade_path frames)
    by (rewrite Hspec; left).
  apply elem_of_detect_spec in Hin as (i & Hi & Hat).
  apply detection_at_inv in Hat as (img & Himg & Hboxes & _).
  destruct Hboxes. apply Hnone. by eapply list_elem_of_lookup_2.
Qed.

(** X5. When no pair of consecutive frames exceeds the threshold, shake
    detection on a source with at least one frame completes whatever the
    frame rate, zero included: it returns the empty list, releases the
    capture and stores a report with no event and [total_events = 0]. *)
Theorem quiet_video_reports_zero_events w video_path output_path threshold
    v :
  source w video_path = Some v ->
  video_frames v ≠ [] ->
  output_path ∉ locked w ->
  (∀ (i : nat) prev cur,
     video_frames v !! i = Some prev -> video_frames v !! S i = Some cur ->
     PyFloat.gt (flow_mean (cvtColor prev) (cvtColor cur)) threshold
       = false) ->
  let run := detect_camera_shake video_path output_path threshold w in
  fst run = Returned [] ∧
  released w (snd run) ∧
  fs (snd run) !! output_path =
    Some (JsonFile (JDict [("source_video", JString video_path);
                           ("shake_events", JList []);
                           ("total_events", JInt 0)])).
Proof.
  intros Hsrc Hne Hout Hquiet run. subst run.
  pose proof (shake_spec_quiet (video_fps v) threshold _ Hquiet) as Hspec.
  destruct (video_frames v) as [|f0 rest] eqn:Hfr; [done|].
  rewrite <- Hfr in *.
  rewrite (shake_run_complete _ _ _ _ _ _ _ Hsrc Hfr (or_intror Hspec)).
  rewrite decide_False by done. rewrite Hspec. simpl.
  split; [done|]. split; [|apply lookup_insert_eq].
  unfold released. rewrite new_log_add_log by done.
  rewrite !elem_of_cons, !elem_of_app, !elem_of_cons. tauto.
Qed.

(** X6. When the classifier returns no box for any frame, an empty source
    included, detection with a known profile completes whatever the frame
    rate: it returns the empty list and stores a report with no detection
    and [total_frames_with_detections = 0]. *)
Theorem boxless_video_reports_zero_detections w video_path output_path
    cascade_type cascade_path v :
  source w video_path = Some v ->
  cascade_path_of cascade_type = Some cascade_path ->
  output_path ∉ locked w ->
  (∀ img, img ∈ video_frames v ->
          detectMultiScale cascade_path (cvtColor img) = []) ->
  let run := detect_faces_objects video_path output_path cascade_type w in
  fst run = Returned [] ∧
  released w (snd run) ∧
  fs (snd run) !! output_path =
    Some (JsonFile (JDict [("source_video", JString video_path);
                           ("detection_type", JString cascade_type);
                           ("detections", JList []);
                           ("total_frames_with_detections", JInt 0)])).
Proof.
  intros Hsrc Hct Hout Hnone run. subst run.
  pose proof (detect_spec_boxless (video_fps v) cascade_path _ Hnone)
    as Hspec.
  rewrite (detect_run_complete _ _ _ _ _ _ Hsrc Hct (or_intror Hspec)).
  rewrite decide_False by done. rewrite Hspec. simpl.
  split; [done|]. split; [|apply lookup_insert_eq].
  unfold released. rewrite new_log_add_log by done.
  rewrite !elem_of_cons, !elem_of_app, !elem_of_cons. tauto.
Qed.

(** ** Runs that fail *)

Lemma reads_only_no_attempt l :
  reads_only l -> Forall (λ a, is_write_attempt a = false) l.
Proof.
  unfold reads_only. intros Hl. eapply Forall_impl; [exact Hl|].
  intros a Ha. by destruct a.
Qed.

(** X7. A run that fails on the timestamp division has opened the capture
    and leaves it unreleased, attempts no report and changes no file; this
    holds for both operations. *)
Theorem division_failure_leaves_capture_open w video_path output_path :
  (∀ threshold,
     let run := detect_camera_shake video_path output_path threshold w in
     fst run = Raised ZeroDivisionError ->
     CapOpen video_path true ∈ new_log w (snd run) ∧
     ¬ released w (snd run) ∧
     ¬ report_attempted w (snd run) ∧
     fs (snd run) = fs w) ∧
  (∀ cascade_type,
     let run :=
       detect_faces_objects video_path output_path cascade_type w in
     fst run = Raised ZeroDivisionError ->
     CapOpen video_path true ∈ new_log w (snd run) ∧
     ¬ released w (snd run) ∧
     ¬ report_attempted w (snd run) ∧
     fs (snd run) = fs w).
Proof.
  split.
  - intros threshold run. subst run.
    shake_paths w video_path output_path threshold; try done.
    destruct (loop_outcome _ _ _) as [evs|e]; simpl.
    + by destruct (decide (output_path ∈ locked w)).
    + intros _. unfold released, report_attempted.
      rewrite new_log_add_log by done.
      split; [by left|]. split; [intros Hin; in_log Hin|]. split; [|done].
      apply no_write_attempt. repeat constructor.
      by apply reads_only_no_attempt.
  - intros cascade_type run. subst run.
    detect_paths w video_path output_path cascade_type; try done.
    destruct (loop_outcome _ _ _) as [evs|e]; simpl.
    + by destruct (decide (output_path ∈ locked w)).
    + intros _. unfold released, report_attempted.
      rewrite new_log_add_log by done.
      split; [by left|]. split; [intros Hin; in_log Hin|]. split; [|done].
      apply no_write_attempt. repeat constructor.
      by apply reads_only_no_attempt.
Qed.

(** X8. When the report path cannot be opened for writing, a run on a
    source with a nonzero frame rate (and, for shake detection, a first
    frame) raises OSError only after the whole stream was read and the
    capture released; the failed write is its last effect, no file
    changes, and no list is returned. *)
Theorem locked_report_path_fails_after_release w video_path output_path v :
  source w video_path = Some v ->
  PyFloat.is_zero (video_fps v) = false ->
  output_path ∈ locked w ->
  let effects :=
    CapOpen video_path true :: all_reads (length (video_frames v))
      ++ [CapRelease; FileWriteFailed output_path] in
  (∀ threshold,
     video_frames v ≠ [] ->
     let run := detect_camera_shake video_path output_path threshold w in
     fst run = Raised OSError ∧ new_log w (snd run) = effects ∧
     fs (snd run) = fs w) ∧
  (∀ cascade_type cascade_path,
     cascade_path_of cascade_type = Some cascade_path ->
     let run :=
       detect_faces_objects video_path output_path cascade_type w in
     fst run = Raised OSError ∧ new_log w (snd run) = effects ∧
     fs (snd run) = fs w).
Proof.
  intros Hsrc Hfps Hlocked effects. subst effects. split.
  - intros threshold Hne run. subst run.
    destruct (video_frames v) as [|f0 rest] eqn:Hfr; [done|].
    rewrite <- Hfr in *.
    rewrite (shake_run_complete _ _ _ _ _ _ _ Hsrc Hfr (or_introl Hfps)).
    rewrite decide_True by done. simpl.
    rewrite new_log_add_log by done. by rewrite <- app_assoc.
  - intros cascade_type cascade_path Hct run. subst run.
    rewrite (detect_run_complete _ _ _ _ _ _ Hsrc Hct (or_introl Hfps)).
    rewrite decide_True by done. simpl.
    rewrite new_log_add_log by done. by rewrite <- app_assoc.
Qed.

(** ** Files *)

Lemma detect_run_locked w video_path output_path cascade_type :
  locked (snd (detect_faces_objects video_path output_path cascade_type w))
    = locked w.
Proof.
  detect_paths w video_path output_path cascade_type; try done.
  destruct (loop_outcome _ _ _); [|done]. simpl.
  by destruct (decide (output_path ∈ locked w)).
Qed.

Lemma shake_keeps_other_paths w video_path output_path threshold p :
  p ≠ output_path ->
  fs (snd (detect_camera_shake video_path output_path threshold w)) !! p
    = fs w !! p.
Proof.
  intros Hne.
  shake_paths w video_path output_path threshold; try done.
  destruct (loop_outcome _ _ _); [|done].
  destruct (decide (output_path ∈ locked w)); [done|].
  simpl. by rewrite lookup_insert_ne.
Qed.

Lemma detect_keeps_other_paths w video_path output_path cascade_type p :
  p ≠ output_path ->
  fs (snd (detect_faces_objects video_path output_path cascade_type w)) !! p
    = fs w !! p.
Proof.
  intros Hne.
  detect_paths w video_path output_path cascade_type; try done.
  destruct (loop_outcome _ _ _); [|done]. simpl.
  destruct (decide (output_path ∈ locked w)); [done|].
  simpl. by rewrite lookup_insert_ne.
Qed.

(** X9. Neither operation touches a file other than the report path: the
    content of every other path, the input video included when it is not
    the report path, is the same after the run as before, whatever the
    outcome. *)
Theorem only_the_report_path_changes w video_path output_path p :
  p ≠ output_path ->
  (∀ threshold,
     fs (snd (detect_camera_shake video_path output_path threshold w)) !! p
       = fs w !! p) ∧
  (∀ cascade_type,
     fs (snd (detect_faces_objects video_path output_path cascade_type w))
       !! p = fs w !! p).
Proof.
  intros Hne. split.
  - intros threshold. by apply shake_keeps_other_paths.
  - intros cascade_type. by apply detect_keeps_other_paths.
Qed.

Lemma source_json w video_path doc :
  fs w !! video_path = Some (JsonFile doc) -> source w video_path = None.
Proof. unfold source. by intros ->. Qed.

(** X10. When the report path is the input path itself, a completed shake
    detection replaces the video by its report, and the same call repeated
    afterwards finds no video to open: it reports the failure and returns
    the empty list. *)
Theorem report_over_input_blocks_rerun w video_path threshold v :
  source w video_path = Some v ->
  video_frames v ≠ [] ->
  PyFloat.is_zero (video_fps v) = false ->
  video_path ∉ locked w ->
  let evs := shake_spec (video_fps v) threshold (video_frames v) in
  let first := detect_camera_shake video_path video_path threshold w in
  let second :=
    detect_camera_shake video_path video_path threshold (snd first) in
  fst first = Returned evs ∧
  fs (snd first) !! video_path
    = Some (JsonFile (shake_report video_path evs)) ∧
  fst second = Returned [] ∧
  new_log (snd first) (snd second) =
    [CapOpen video_path false;
     Print ("Error: Could not open video " +:+ video_path)].
Proof.
  intros Hsrc Hne Hfps Hout evs first second.
  destruct (shake_run_ok w video_path video_path threshold v Hsrc Hne Hfps
              Hout) as (l & _ & Hfirst).
  fold first in Hfirst. fold evs in Hfirst.
  assert (Hfile : fs (snd first) !! video_path
                  = Some (JsonFile (shake_report video_path evs))).
  { rewrite Hfirst. simpl. apply lookup_insert_eq. }
  split; [by rewrite Hfirst|]. split; [done|].
  subst second.
  rewrite (shake_run_closed _ _ _ _ (source_json _ _ _ Hfile)). simpl.
  split; [done|]. by rewrite new_log_add_log.
Qed.

(** ** Thresholds nothing exceeds *)

Lemma unreachable_threshold threshold m :
  threshold = S754_nan ∨ threshold = S754_infinity false ->
  PyFloat.gt m threshold = false.
Proof. intros [->| ->]; by destruct m as [?|[]| |[] ? ?]. Qed.

(** X11. With a threshold that is a NaN or plus infinity no pair of frames
    qualifies: shake detection produces no event on any input and never
    fails on the timestamp division, whatever frame rate the source
    reports. *)
Theorem unreachable_threshold_gives_no_events w video_path output_path
    threshold :
  threshold = S754_nan ∨ threshold = S754_infinity false ->
  let run := detect_camera_shake video_path output_path threshold w in
  events_of (fst run) = [] ∧ fst run ≠ Raised ZeroDivisionError.
Proof.
  intros Hth run. subst run.
  destruct (source w video_path) as [v|] eqn:Hsrc.
  - destruct (video_frames v) as [|f0 rest] eqn:Hfr.
    + by rewrite (shake_run_empty _ _ _ _ _ Hsrc Hfr).
    + assert (Hspec :
                shake_spec (video_fps v) threshold (video_frames v) = []).
      { apply shake_spec_quiet. intros. by apply unreachable_threshold. }
      rewrite (shake_run_complete _ _ _ _ _ _ _ Hsrc Hfr (or_intror Hspec)).
      rewrite Hspec. by destruct (decide (output_path ∈ locked w)).
  - by rewrite (shake_run_closed _ _ _ _ Hsrc).
Qed.

(** ** Where the report lands and what it is labelled with *)

Lemma cascade_path_of_known cascade_type cascade_path :
  cascade_path_of cascade_type = Some cascade_path ->
  cascade_type = "face" ∨ cascade_type = "object".
Proof.
  unfold cascade_path_of.
  destruct (String.eqb cascade_type "face") eqn:Hface.
  { apply String.eqb_eq in Hface. by left. }
  destruct (String.eqb cascade_type "object") eqn:Hobject; [|done].
  apply String.eqb_eq in Hobject. by right.
Qed.

Lemma shake_write_labelled w video_path output_path threshold p doc :
  let run := detect_camera_shake video_path output_path threshold w in
  FileWrite p doc ∈ new_log w (snd run) ->
  p = output_path ∧
  fs (snd run) !! output_path = Some (JsonFile doc) ∧
  json_get "source_video" doc = Some (JString video_path) ∧
  json_get "detection_type" doc = None.
Proof.
  intros run Hin.
  apply shake_write_is_report in Hin as (-> & evs & _ & -> & Hfile).
  by fold run in Hfile.
Qed.

Lemma detect_write_labelled w video_path output_path cascade_type p doc :
  let run := detect_faces_objects video_path output_path cascade_type w in
  FileWrite p doc ∈ new_log w (snd run) ->
  p = output_path ∧
  fs (snd run) !! output_path = Some (JsonFile doc) ∧
  json_get "source_video" doc = Some (JString video_path) ∧
  json_get "detection_type" doc = Some (JString cascade_type) ∧
  (cascade_type = "face" ∨ cascade_type = "object").
Proof.
  intros run Hin.
  assert (Hknown : cascade_type = "face" ∨ cascade_type = "object").
  { destruct (cascade_path_of cascade_type) as [cp|] eqn:Hct;
      [by eapply cascade_path_of_known|].
    subst run. destruct (source w video_path) as [v|] eqn:Hsrc.
    - rewrite (detect_run_unknown _ _ _ _ _ Hsrc Hct) in Hin.
      simpl in Hin. rewrite new_log_add_log in Hin by done. in_log Hin.
    - rewrite (detect_run_closed _ _ _ _ Hsrc) in Hin.
      simpl in Hin. rewrite new_log_add_log in Hin by done. in_log Hin. }
  apply detect_write_is_report in Hin as (-> & evs & _ & -> & Hfile).
  by fold run in Hfile.
Qed.

(** X12. A report that a run writes is stored at the report path and
    records the input path as [source_video]; a detection report also
    records the requested profile as [detection_type], and that profile is
    [face] or [object]. *)
Theorem written_report_is_stored_and_labelled w video_path output_path :
  (∀ threshold p doc,
     let run := detect_camera_shake video_path output_path threshold w in
     FileWrite p doc ∈ new_log w (snd run) ->
     p = output_path ∧
     fs (snd run) !! output_path = Some (JsonFile doc) ∧
     json_get "source_video" doc = Some (JString video_path) ∧
     json_get "detection_type" doc = None) ∧
  (∀ cascade_type p doc,
     let run :=
       detect_faces_objects video_path output_path cascade_type w in
     FileWrite p doc ∈ new_log w (snd run) ->
     p = output_path ∧
     fs (snd run) !! output_path = Some (JsonFile doc) ∧
     json_get "source_video" doc = Some (JString video_path) ∧
     json_get "detection_type" doc = Some (JString cascade_type) ∧
     (cascade_type = "face" ∨ cascade_type = "object")).
Proof.
  split.
  - intros threshold p doc. apply shake_write_labelled.
  - intros cascade_type p doc. apply detect_write_labelled.
Qed.

(** ** Running detection twice *)

Lemma detect_same_input w1 w2 video_path output_path cascade_type :
  source w1 video_path = source w2 video_path ->
  (output_path ∈ locked w1 ↔ output_path ∈ locked w2) ->
  let r1 := detect_faces_objects video_path output_path cascade_type w1 in
  let r2 := detect_faces_objects video_path output_path cascade_type w2 in
  fst r1 = fst r2 ∧
  ((fs (snd r1) = fs w1 ∧ fs (snd r2) = fs w2) ∨
   ∃ doc, fs (snd r1) = <[output_path := JsonFile doc]> (fs w1) ∧
          fs (snd r2) = <[output_path := JsonFile doc]> (fs w2)).
Proof.
  intros Hsame Hlock r1 r2. subst r1 r2.
  detect_paths w1 video_path output_path cascade_type.
  - destruct (detect_run_known w2 video_path output_path cascade_type v
                cascade_path) as (l2 & _ & ->);
      [by rewrite <- Hsame|done|].
    destruct (loop_outcome _ _ _) as [evs|e]; [|split; [done|by left]].
    simpl. destruct (decide (output_path ∈ locked w1)) as [Hin|Hout].
    + rewrite decide_True by tauto. split; [done|by left].
    + rewrite decide_False by tauto. split; [done|]. right. by eexists.
  - rewrite (detect_run_unknown w2 video_path output_path cascade_type v);
      [|by rewrite <- Hsame|done]. split; [done|by left].
  - rewrite (detect_run_closed w2 video_path output_path cascade_type);
      [|by rewrite <- Hsame]. split; [done|by left].
Qed.

(** X13. Running face/object detection a second time with the same
    arguments, in the world the first run left behind and with the video
    at the input path unchanged, gives the same outcome and events and
    leaves the same report at the report path. *)
Theorem detection_rerun_identical w video_path output_path cascade_type :
  let first :=
    detect_faces_objects video_path output_path cascade_type w in
  let second :=
    detect_faces_objects video_path output_path cascade_type (snd first) in
  fs (snd first) !! video_path = fs w !! video_path ->
  fst second = fst first ∧
  fs (snd second) !! output_path = fs (snd first) !! output_path.
Proof.
  intros first second Hsame.
  destruct (detect_same_input w (snd first) video_path output_path
              cascade_type) as (Hfst & Hfs).
  { symmetry. by apply source_agree. }
  { subst first. by rewrite detect_run_locked. }
  fold first in Hfst, Hfs. fold second in Hfst, Hfs.
  split; [done|].
  destruct Hfs as [(_ & ->)|(doc & -> & ->)]; [done|].
  by rewrite lookup_insert_eq, lookup_insert_eq.
Qed.

(** * The program around the operations *)

Lemma output_of_chosen args w :
  output_of args w = (Returned (chosen_output args (now w)), w).
Proof.
  unfold output_of, chosen_output. destruct (output args) as [o|]; [|done].
  by destruct (String.eqb o "").
Qed.

Lemma fst_bind_print {A} (m : M A) (msg : A -> string) w :
  fst (bind m (λ x, print (msg x)) w) = forget (fst (m w)).
Proof. unfold bind. by destruct (m w) as [[x|e] w']. Qed.

Lemma snd_bind_print {A} (m : M A) (msg : A -> string) w :
  snd (bind m (λ x, print (msg x)) w) =
    match fst (m w) with
    | Returned x => add_log (snd (m w)) [Print (msg x)]
    | Raised _ => snd (m w)
    end.
Proof. unfold bind. by destruct (m w) as [[x|e] w']. Qed.

Lemma forget_forget {A} (o : outcome A) : forget (forget o) = forget o.
Proof. by destruct o. Qed.

(** The three announcements [main] prints before it starts an operation. *)
Lemma main_found args w :
  is_Some (fs w !! video args) ->
  let out := chosen_output args (now w) in
  main args w =
    bind
      match mode args with
      | shake =>
          bind (detect_camera_shake (video args) out (threshold args))
            (λ results, print ("Analysis complete. Found "
                                 +:+ pretty (length results)
                                 +:+ " camera shake events."))
      | face =>
          bind (detect_faces_objects (video args) out "face")
            (λ results, print ("Analysis complete. Found faces in "
                                 +:+ pretty (length results) +:+ " frames."))
      | object =>
          bind (detect_faces_objects (video args) out "object")
            (λ results, print ("Analysis complete. Found objects in "
                                 +:+ pretty (length results) +:+ " frames."))
      end
      (λ _, print ("Results saved to: " +:+ out))
      (add_log w [Print ("Analyzing video: " +:+ video args);
                  Print ("Mode: " +:+ mode_name (mode args));
                  Print ("Output will be saved to: " +:+ out)]).
Proof.
  intros Hfile out. unfold main.
  assert (Hfound : isfile (video args) w = (Returned true, w)).
  { unfold isfile. by rewrite bool_decide_eq_true_2. }
  rewrite (bind_returned _ _ _ _ _ Hfound).
  change (negb true) with false. cbv iota.
  rewrite (bind_returned _ _ _ _ _ (output_of_chosen args w)).
  rewrite (bind_returned (print _) _ _ tt _ eq_refl).
  rewrite (bind_returned (print _) _ _ tt _ eq_refl).
  rewrite (bind_returned (print _) _ _ tt _ eq_refl).
  by rewrite !add_log_app.
Qed.

Lemma main_missing args w :
  fs w !! video args = None ->
  main args w =
    (Raised (SystemExit 1),
     add_log w
       [Print ("Error: Video file '" +:+ video args +:+ "' not found")]).
Proof.
  intros Hmissing. unfold main.
  assert (Hfound : isfile (video args) w = (Returned false, w)).
  { unfold isfile. rewrite bool_decide_eq_false_2; [done|].
    rewrite Hmissing. by intros [? ?]. }
  rewrite (bind_returned _ _ _ _ _ Hfound).
  change (negb false) with true. cbv iota.
  by rewrite (bind_returned (print _) _ _ tt _ eq_refl).
Qed.

(** X14. When the input path is not an existing file, [main] prints that
    the file was not found and exits with status 1: it opens no capture,
    attempts no report and changes no file. *)
Theorem main_missing_input_exits w args :
  fs w !! video args = None ->
  let run := main args w in
  fst run = Raised (SystemExit 1) ∧
  new_log w (snd run) =
    [Print ("Error: Video file '" +:+ video args +:+ "' not found")] ∧
  fs (snd run) = fs w.
Proof.
  intros Hmissing run. subst run. rewrite (main_missing _ _ Hmissing).
  simpl. split; [done|]. split; [|done]. by rewrite new_log_add_log.
Qed.

(** X15. When the input file exists, [main] ends as the operation it
    selects ends: it returns when the operation returns and raises the
    same exception when the operation raises.  The operation is shake
    detection with the given threshold in shake mode, and detection with
    the profile named like the mode otherwise; the report path passed on
    is [--output], or the derived name when [--output] is absent or
    empty. *)
Theorem main_ends_as_the_operation w args :
  is_Some (fs w !! video args) ->
  let out := chosen_output args (now w) in
  fst (main args w) =
    match mode args with
    | shake =>
        forget (fst (detect_camera_shake (video args) out (threshold args)
                       w))
    | face => forget (fst (detect_faces_objects (video args) out "face" w))
    | object =>
        forget (fst (detect_faces_objects (video args) out "object" w))
    end.
Proof.
  intros Hfile out. rewrite (main_found _ _ Hfile). fold out.
  rewrite (fst_bind_print _ (λ _, "Results saved to: " +:+ out)).
  destruct (mode args); rewrite fst_bind_print, forget_forget; f_equal.
  - by apply shake_same_input.
  - by apply detect_same_input.
  - by apply detect_same_input.
Qed.

(** X16. When the input file exists but does not open as a video, [main]
    still returns normally and ends by printing that the results were
    saved to the report path, although no report write was attempted and
    no file changed: its effects are the three announcements, the failed
    open, the error message, a count of zero and the closing message. *)
Theorem main_reports_saved_without_writing w args :
  is_Some (fs w !! video args) ->
  source w (video args) = None ->
  let out := chosen_output args (now w) in
  let run := main args w in
  fst run = Returned tt ∧
  fs (snd run) = fs w ∧
  ¬ report_attempted w (snd run) ∧
  new_log w (snd run) =
    [Print ("Analyzing video: " +:+ video args);
     Print ("Mode: " +:+ mode_name (mode args));
     Print ("Output will be saved to: " +:+ out);
     CapOpen (video args) false;
     Print ("Error: Could not open video " +:+ video args);
     Print match mode args with
           | shake => "Analysis complete. Found 0 camera shake events."
           | face => "Analysis complete. Found faces in 0 frames."
           | object => "Analysis complete. Found objects in 0 frames."
           end;
     Print ("Results saved to: " +:+ out)].
Proof.
  intros Hfile Hsrc out run. subst run.
  rewrite (main_found _ _ Hfile). fold out.
  set (started := add_log w _).
  assert (Hclosed : source started (video args) = None) by exact Hsrc.
  assert (Hlog :
    new_log w
      (snd (bind
              match mode args with
              | shake =>
                  bind (detect_camera_shake (video args) out
                          (threshold args))
                    (λ results, print ("Analysis complete. Found "
                                         +:+ pretty (length results)
                                         +:+ " camera shake events."))
              | face =>
                  bind (detect_faces_objects (video args) out "face")
                    (λ results, print ("Analysis complete. Found faces in "
                                         +:+ pretty (length results)
                                         +:+ " frames."))
              | object =>
                  bind (detect_faces_objects (video args) out "object")
                    (λ results, print ("Analysis complete. Found objects in "
                                         +:+ pretty (length results)
                                         +:+ " frames."))
              end
              (λ _, print ("Results saved to: " +:+ out)) started)) =
    [Print ("Analyzing video: " +:+ video args);
     Print ("Mode: " +:+ mode_name (mode args));
     Print ("Output will be saved to: " +:+ out);
     CapOpen (video args) false;
     Print ("Error: Could not open video " +:+ video args);
     Print match mode args with
           | shake => "Analysis complete. Found 0 camera shake events."
           | face => "Analysis complete. Found faces in 0 frames."
           | object => "Analysis complete. Found objects in 0 frames."
           end;
     Print ("Results saved to: " +:+ out)]).
  { destruct (mode args); unfold bind at 1 2;
      rewrite ?(shake_run_closed _ _ _ _ Hclosed),
              ?(detect_run_closed _ _ _ _ Hclosed);
      unfold print, tell; simpl; subst started;
      rewrite !add_log_app; by rewrite new_log_add_log. }
  split; [|split; [|split; [|exact Hlog]]].
  - destruct (mode args); unfold bind at 1 2;
      by rewrite ?(shake_run_closed _ _ _ _ Hclosed),
                 ?(detect_run_closed _ _ _ _ Hclosed).
  - destruct (mode args); unfold bind at 1 2;
      by rewrite ?(shake_run_closed _ _ _ _ Hclosed),
                 ?(detect_run_closed _ _ _ _ Hclosed).
  - unfold report_attempted. rewrite Hlog.
    apply no_write_attempt. by repeat constructor.
Qed.

(** ** What [main] writes, and where *)

Lemma shake_log_extends w video_path output_path threshold :
  let run := detect_camera_shake video_path output_path threshold w in
  log (snd run) = log w ++ new_log w (snd run).
Proof.
  intros run. subst run.
  shake_paths w video_path output_path threshold; simpl;
    try by rewrite new_log_add_log.
  destruct (loop_outcome _ _ _); simpl; [|by rewrite new_log_add_log].
  destruct (decide (output_path ∈ locked w)); simpl;
    by rewrite new_log_add_log.
Qed.

Lemma detect_log_extends w video_path output_path cascade_type :
  let run := detect_faces_objects video_path output_path cascade_type w in
  log (snd run) = log w ++ new_log w (snd run).
Proof.
  intros run. subst run.
  detect_paths w video_path output_path cascade_type; simpl;
    try by rewrite new_log_add_log.
  destruct (loop_outcome _ _ _); simpl; [|by rewrite new_log_add_log].
  destruct (decide (output_path ∈ locked w)); simpl;
    by rewrite new_log_add_log.
Qed.

(** A report written under [main] was written by the operation. *)
Lemma write_through_prints {A} (m : M A) (msg : A -> string) closing w
    (announced : list action) p doc :
  let started := add_log w announced in
  log (snd (m started)) = log started ++ new_log started (snd (m started)) ->
  Forall (λ a, is_write_attempt a = false) announced ->
  FileWrite p doc
    ∈ new_log w (snd (bind (bind m (λ x, print (msg x)))
                        (λ _, print closing) started)) ->
  FileWrite p doc ∈ new_log started (snd (m started)).
Proof.
  intros started Hlog Hannounced.
  rewrite (snd_bind_print _ (λ _, closing)), fst_bind_print, snd_bind_print.
  assert (Hnew : ∀ tail,
            new_log w (add_log (snd (m started)) tail) =
            announced ++ new_log started (snd (m started)) ++ tail).
  { intros tail. unfold new_log at 1. simpl. rewrite Hlog. subst started.
    simpl. rewrite <- !app_assoc. by rewrite drop_app_length. }
  assert (Hskip : ∀ tail,
            Forall (λ a, is_write_attempt a = false) tail ->
            FileWrite p doc
              ∈ announced ++ new_log started (snd (m started)) ++ tail ->
            FileWrite p doc ∈ new_log started (snd (m started))).
  { intros tail Htail Hin.
    apply elem_of_app in Hin as [Hin|Hin].
    { rewrite Forall_forall in Hannounced. by apply Hannounced in Hin. }
    apply elem_of_app in Hin as [Hin|Hin]; [done|].
    rewrite Forall_forall in Htail. by apply Htail in Hin. }
  destruct (fst (m started)) as [x|e]; simpl.
  - rewrite add_log_app, Hnew. apply Hskip. by repeat constructor.
  - rewrite <- (app_nil_r (log (snd (m started)))) in Hlog.
    intros Hin. apply (Hskip []); [constructor|].
    rewrite <- Hnew. unfold add_log. simpl.
    unfold new_log in *. simpl. by rewrite app_nil_r.
Qed.

(** X17. Whatever the mode and the outcome, [main] changes no file other
    than the report path it settled on: [--output] when given and not
    empty, and otherwise the name derived from the input path, the mode
    and the clock. *)
Theorem main_changes_only_the_report_path w args p :
  p ≠ chosen_output args (now w) ->
  fs (snd (main args w)) !! p = fs w !! p.
Proof.
  intros Hne. destruct (fs w !! video args) as [f|] eqn:Hfile.
  - rewrite (main_found args w) by (by rewrite Hfile).
    set (out := chosen_output args (now w)) in *.
    set (started := add_log w _).
    rewrite (snd_bind_print _ (λ _, "Results saved to: " +:+ out)).
    assert (Hop :
      fs (snd (match mode args with
               | shake =>
                   bind (detect_camera_shake (video args) out
                           (threshold args))
                     (λ results, print ("Analysis complete. Found "
                                          +:+ pretty (length results)
                                          +:+ " camera shake events."))
               | face =>
                   bind (detect_faces_objects (video args) out "face")
                     (λ results, print ("Analysis complete. Found faces in "
                                          +:+ pretty (length results)
                                          +:+ " frames."))
               | object =>
                   bind (detect_faces_objects (video args) out "object")
                     (λ results,
                        print ("Analysis complete. Found objects in "
                                 +:+ pretty (length results) +:+ " frames."))
               end started)) !! p = fs w !! p).
    { destruct (mode args); rewrite snd_bind_print.
      - pose proof (shake_keeps_other_paths started (video args) out
                      (threshold args) p Hne) as Hkeep.
        by destruct (fst _).
      - pose proof (detect_keeps_other_paths started (video args) out
                      "face" p Hne) as Hkeep.
        by destruct (fst _).
      - pose proof (detect_keeps_other_paths started (video args) out
                      "object" p Hne) as Hkeep.
        by destruct (fst _). }
    by destruct (fst _).
  - by rewrite (main_missing _ _ Hfile).
Qed.

(** X18. A report that [main] writes lands on the report path it settled
    on, records the input path as [source_video], and has the shape of the
    mode: no [detection_type] in shake mode, and [detection_type] equal to
    the name of the mode in face and object mode. *)
Theorem main_report_matches_mode w args p doc :
  FileWrite p doc ∈ new_log w (snd (main args w)) ->
  p = chosen_output args (now w) ∧
  json_get "source_video" doc = Some (JString (video args)) ∧
  json_get "detection_type" doc =
    match mode args with
    | shake => None
    | face => Some (JString "face")
    | object => Some (JString "object")
    end.
Proof.
  destruct (fs w !! video args) as [f|] eqn:Hfile.
  - rewrite (main_found args w) by (by rewrite Hfile).
    set (out := chosen_output args (now w)) in *.
    destruct (mode args); intros Hin;
      apply write_through_prints in Hin;
      try (by repeat constructor);
      try apply shake_log_extends; try apply detect_log_extends.
    + by apply shake_write_labelled in Hin as (-> & _ & ? & ?).
    + by apply detect_write_labelled in Hin as (-> & _ & ? & ? & _).
    + by apply detect_write_labelled in Hin as (-> & _ & ? & ? & _).
  - rewrite (main_missing _ _ Hfile). simpl.
    rewrite new_log_add_log by done. intros Hin. in_log Hin.
Qed.

End Properties.

(** * The properties on the concrete backend *)

#[local] Existing Instance demo.

(** C2. Shake detection on a source that opens but yields no frame, and
    detection with an unrecognized profile on a source that opens, both
    return the empty list without releasing the capture they opened: the
    log of each run shows the open and no release. *)
Theorem early_return_skips_release :
  let blank_run :=
    detect_camera_shake "blank.mp4" "report.json" Demo.half Demo.disk in
  let car_run :=
    detect_faces_objects "clip.mp4" "report.json" "car" Demo.disk in
  (fst blank_run = Returned [] ∧
   new_log Demo.disk (snd blank_run) =
     [CapOpen "blank.mp4" true; CapRead false;
      Print "Error: Could not read first frame"] ∧
   ¬ released Demo.disk (snd blank_run)) ∧
  (fst car_run = Returned [] ∧
   new_log Demo.disk (snd car_run) =
     [CapOpen "clip.mp4" true; Print "Error: Unknown cascade type 'car'"] ∧
   ¬ released Demo.disk (snd car_run)).
Proof.
  intros blank_run car_run. split.
  - split; [reflexivity|]. split; [reflexivity|].
    by apply (shake_empty_source_unreleased _ _ _ _ Demo.blank).
  - split; [reflexivity|]. split; [reflexivity|].
    by apply (detect_unknown_profile_unreleased _ _ _ _ Demo.clip).
Qed.

(** The clip has frames 0, 1, 1 and 30 at 10 frames per second: with
    threshold 0.5 the pairs ending at positions 1 and 3 are shake events. *)
Example clip_shake_events :
  fst (detect_camera_shake "clip.mp4" "report.json" Demo.half Demo.disk) =
    Returned
      [ShakeEvent.mk 1 (PyFloat.div (PyFloat.of_int 1) Demo.ten)
         (PyFloat.of_int 1);
       ShakeEvent.mk 3 (PyFloat.div (PyFloat.of_int 3) Demo.ten)
         (PyFloat.of_int 29)].
Proof. reflexivity. Qed.

(** Scenario A: three static frames at 30 fps, threshold 0.5. *)
Example scenario_static :
  let run :=
    detect_camera_shake "static3.mp4" "report.json" Demo.half Demo.disk in
  fst run = Returned [] ∧
  fs (snd run) !! "report.json" =
    Some (JsonFile (JDict [("source_video", JString "static3.mp4");
                           ("shake_events", JList []);
                           ("total_events", JInt 0)])).
Proof. split; reflexivity. Qed.

(** Scenario B: two frames of mean magnitude 1.0 at 10 fps. *)
Example scenario_jolt :
  fst (detect_camera_shake "jolt2.mp4" "report.json" Demo.half Demo.disk) =
    Returned [ShakeEvent.mk 1 (S754_finite false 7205759403792794 (-56))
                (PyFloat.of_int 1)].
Proof. reflexivity. Qed.

(** Scenario C: one box on frames 0 and 3 of five, at 25 fps. *)
Example scenario_faces :
  fst (detect_faces_objects "faces5.mp4" "report.json" "face" Demo.disk) =
    Returned
      [DetectionEvent.mk 0 (S754_zero false) 1 [Box.mk 10 10 20 20];
       DetectionEvent.mk 3 (PyFloat.div (PyFloat.of_int 3) (PyFloat.of_int 25))
         1 [Box.mk 10 10 20 20]].
Proof. reflexivity. Qed.

Example one_tenth :
  PyFloat.div (PyFloat.of_int 1) Demo.ten
  = S754_finite false 7205759403792794 (-56).
Proof. reflexivity. Qed.

Example below_one_in_single_precision :
  PyFloat.to_float32 Demo.below_one = PyFloat.of_int 1.
Proof. reflexivity. Qed.

Example tenth_in_single_precision :
  PyFloat.to_float32 Demo.tenth = S754_finite false 7205759511166976 (-56) ∧
  PyFloat.gt (PyFloat.to_float32 Demo.tenth) Demo.tenth = true.
Proof. split; reflexivity. Qed.

Example half_in_single_precision :
  PyFloat.to_float32 Demo.half = Demo.half.
Proof. reflexivity. Qed.

Example jolt_on_numpy1 :
  fst (detect_camera_shake_on NumPy1 "jolt2.mp4" "report.json"
         Demo.below_one Demo.disk) =
    Returned
      [ShakeEvent.mk 1 (PyFloat.div (PyFloat.of_int 1) Demo.ten)
         (PyFloat.of_int 1)].
Proof. reflexivity. Qed.



Lemma unknown_profile_reads_nothing_witness :
  let run := detect_faces_objects "clip.mp4" "report.json" "car" Demo.disk in
  fst run = Returned [] ∧
  frames_read Demo.disk (snd run) = [] ∧
  ¬ report_attempted Demo.disk (snd run) ∧
  fs (snd run) = fs Demo.disk ∧
  (is_Some (source Demo.disk "clip.mp4") ->
   new_log Demo.disk (snd run) =
     [CapOpen "clip.mp4" true;
      Print ("Error: Unknown cascade type '" +:+ "car" +:+ "'")]).
Proof.
  apply (unknown_profile_reads_nothing Demo.disk "clip.mp4" "report.json"
           "car"); discriminate.
Defined.

Lemma detection_event_iff_boxes_witness :
  let run := detect_faces_objects "clip.mp4" "report.json" "face" Demo.disk in
  let boxes_of frame :=
    detectMultiScale "/cv2/data/haarcascade_frontalface_default.xml"
      (cvtColor frame) in
  let with_boxes :=
    filter (λ frame, boxes_of frame ≠ []) (video_frames Demo.clip) in
  ∃ evs doc,
    fst run = Returned evs ∧
    (∀ (i : nat) frame,
       video_frames Demo.clip !! i = Some frame ->
       filter (λ e, DetectionEvent.frame e = Z.of_nat i) evs =
         match boxes_of frame with
         | [] => []
         | boxes =>
             [DetectionEvent.mk (Z.of_nat i)
                (PyFloat.div (PyFloat.of_int (Z.of_nat i))
                   (video_fps Demo.clip))
                (len boxes) boxes]
         end) ∧
    len evs = len with_boxes ∧
    fs (snd run) !! "report.json" = Some (JsonFile doc) ∧
    json_get "total_frames_with_detections" doc
      = Some (JInt (len with_boxes)).
Proof.
  apply (detection_event_iff_boxes Demo.disk "clip.mp4" "report.json" "face"
           "/cv2/data/haarcascade_frontalface_default.xml" Demo.clip).
  - reflexivity.
  - reflexivity.
  - reflexivity.
  - apply not_elem_of_empty.
Defined.

Lemma shake_frames_increasing_witness :
  let evs :=
    events_of
      (fst (detect_camera_shake "clip.mp4" "report.json" Demo.half
              Demo.disk)) in
  let indices := ShakeEvent.frame <$> evs in
  StronglySorted Z.lt indices ∧
  sublist indices (seqZ 1 (frame_total Demo.disk "clip.mp4" - 1)) ∧
  0 ∉ indices.
Proof.
  intros evs.
  apply (shake_frames_increasing Demo.disk "clip.mp4" "report.json"
           Demo.half evs).
  reflexivity.
Defined.

Lemma shake_threshold_monotone_witness :
  let produced t :=
    events_of
      (fst (detect_camera_shake "clip.mp4" "report.json" t Demo.disk)) in
  produced Demo.ten ⊆ produced Demo.half ∧
  sublist (produced Demo.ten) (produced Demo.half).
Proof.
  apply (shake_threshold_monotone Demo.disk "clip.mp4" "report.json"
           Demo.half Demo.ten).
  reflexivity.
Defined.

Lemma shake_rerun_identical_witness :
  let first :=
    detect_camera_shake "clip.mp4" "report.json" Demo.half Demo.disk in
  let second :=
    detect_camera_shake "clip.mp4" "report.json" Demo.half (snd first) in
  fst second = fst first ∧
  events_of (fst second) = events_of (fst first) ∧
  fs (snd second) !! "report.json" = fs (snd first) !! "report.json".
Proof.
  intros first second.
  apply (shake_rerun_identical Demo.disk "clip.mp4" "report.json" Demo.half).
  apply shake_run_keeps_input. discriminate.
Defined.

Lemma report_serializes_returned_list_witness :
  let run :=
    detect_camera_shake "clip.mp4" "report.json" Demo.half Demo.disk in
  let doc := shake_report "clip.mp4" (events_of (fst run)) in
  ∃ evs, fst run = Returned evs ∧
    json_get "shake_events" doc = Some (JList (ShakeEvent.to_json <$> evs)) ∧
    json_get "total_events" doc = Some (JInt (len evs)).
Proof.
  intros run doc.
  apply (proj1 (report_serializes_returned_list Demo.disk "clip.mp4"
                  "report.json") Demo.half "report.json" doc).
  vm_compute. repeat constructor.
Defined.

Lemma timestamp_division_unguarded_witness :
  fst (detect_camera_shake "clip.mp4" "report.json" Demo.half Demo.disk)
    ≠ Raised ZeroDivisionError ∧
  fst (detect_camera_shake "stalled.mp4" "report.json" Demo.half Demo.disk)
    = Raised ZeroDivisionError ∧
  fst (detect_faces_objects "stalled.mp4" "report.json" "face" Demo.disk)
    = Raised ZeroDivisionError.
Proof.
  split; [|split].
  - apply (proj1 (timestamp_division_unguarded Demo.disk "clip.mp4"
                    "report.json" Demo.clip eq_refl) eq_refl).
  - apply (proj1 (proj2 (timestamp_division_unguarded Demo.disk "stalled.mp4"
                           "report.json" Demo.stalled eq_refl) eq_refl)
             Demo.half 0%nat 0 20); reflexivity.
  - apply (proj2 (proj2 (timestamp_division_unguarded Demo.disk "stalled.mp4"
                           "report.json" Demo.stalled eq_refl) eq_refl)
             "face" "/cv2/data/haarcascade_frontalface_default.xml"
             1%nat 20); [reflexivity|reflexivity|discriminate].
Defined.

(** C3, as stated, fails: the input file exists, yet no report write is
    attempted when the file does not decode, nor in shake mode when the
    source yields no frame. *)
Lemma main_without_report_attempt :
  let garbled_args :=
    {| video := "garbled.mp4"; mode := shake;
       output := Some "report.json"; threshold := Demo.half |} in
  let blank_args :=
    {| video := "blank.mp4"; mode := shake;
       output := Some "report.json"; threshold := Demo.half |} in
  (is_Some (fs Demo.disk !! "garbled.mp4") ∧
   fst (main garbled_args Demo.disk) = Returned tt ∧
   ¬ report_attempted Demo.disk (snd (main garbled_args Demo.disk))) ∧
  (is_Some (fs Demo.disk !! "blank.mp4") ∧
   fst (main blank_args Demo.disk) = Returned tt ∧
   ¬ report_attempted Demo.disk (snd (main blank_args Demo.disk))).
Proof.
  intros garbled_args blank_args. split.
  - split; [by eexists|]. split; [reflexivity|].
    apply no_write_attempt. vm_compute. repeat constructor.
  - split; [by eexists|]. split; [reflexivity|].
    apply no_write_attempt. vm_compute. repeat constructor.
Qed.

Lemma main_attempts_report_witness :
  let args :=
    {| video := "clip.mp4"; mode := shake; output := None;
       threshold := Demo.half |} in
  report_attempted Demo.disk (snd (main args Demo.disk)).
Proof.
  intros args.
  apply (main_attempts_report Demo.disk args Demo.clip).
  - reflexivity.
  - reflexivity.
  - discriminate.
Defined.

(** ** Witnesses of the further properties *)

Lemma shelf_unlocked (p : string) :
  p ≠ "sealed.json" -> p ∉ locked Demo.shelf.
Proof.
  intros Hne Hin.
  change (locked Demo.shelf) with ({[ "sealed.json" ]} : gset string) in Hin.
  by apply elem_of_singleton in Hin.
Qed.

Lemma shelf_sealed : "sealed.json" ∈ locked Demo.shelf.
Proof.
  change (locked Demo.shelf) with ({[ "sealed.json" ]} : gset string).
  by apply elem_of_singleton.
Qed.

Lemma shake_events_sound_witness :
  let e :=
    ShakeEvent.mk 3 (PyFloat.div (PyFloat.of_int 3) Demo.ten)
      (PyFloat.of_int 29) in
  PyFloat.is_zero (video_fps Demo.clip) = false ∧
  PyFloat.gt (ShakeEvent.magnitude e) Demo.half = true ∧
  ShakeEvent.timestamp e =
    PyFloat.div (PyFloat.of_int (ShakeEvent.frame e)) (video_fps Demo.clip) ∧
  ∃ (i : nat) prev cur,
    ShakeEvent.frame e = Z.of_nat (S i) ∧
    video_frames Demo.clip !! i = Some prev ∧
    video_frames Demo.clip !! S i = Some cur ∧
    ShakeEvent.magnitude e = flow_mean (cvtColor prev) (cvtColor cur).
Proof.
  intros e.
  apply (shake_events_sound Demo.shelf "clip.mp4" "report.json" Demo.half
           Demo.clip
           (events_of
              (fst (detect_camera_shake "clip.mp4" "report.json" Demo.half
                      Demo.shelf)))).
  - reflexivity.
  - reflexivity.
  - right. left.
Defined.

Lemma detection_events_sound_witness :
  let e :=
    DetectionEvent.mk 3
      (PyFloat.div (PyFloat.of_int 3) Demo.ten) 3
      (replicate 3 (Box.mk 10 10 20 20)) in
  1 <= DetectionEvent.count e ∧
  DetectionEvent.count e = len (DetectionEvent.locations e).
Proof.
  intros e.
  destruct (detection_events_sound Demo.shelf "clip.mp4" "report.json"
              "face" "/cv2/data/haarcascade_frontalface_default.xml"
              Demo.clip
              (events_of
                 (fst (detect_faces_objects "clip.mp4" "report.json" "face"
                         Demo.shelf))) e)
    as (_ & Hcount & Hlen & _).
  - reflexivity.
  - reflexivity.
  - reflexivity.
  - left.
  - split; [exact Hcount|exact Hlen].
Defined.

Lemma detection_frames_increasing_witness :
  let evs :=
    events_of
      (fst (detect_faces_objects "clip.mp4" "report.json" "face"
              Demo.shelf)) in
  let indices := DetectionEvent.frame <$> evs in
  StronglySorted Z.lt indices ∧
  sublist indices (seqZ 0 (frame_total Demo.shelf "clip.mp4")) ∧
  (length evs <= Z.to_nat (frame_total Demo.shelf "clip.mp4"))%nat.
Proof.
  intros evs.
  apply (detection_frames_increasing Demo.shelf "clip.mp4" "report.json"
           "face" evs).
  reflexivity.
Defined.

Lemma returning_run_reads_each_frame_once_witness :
  frames_read Demo.shelf
    (snd (detect_camera_shake "clip.mp4" "report.json" Demo.half Demo.shelf))
  = all_reads 4 ∧
  frames_read Demo.shelf
    (snd (detect_faces_objects "clip.mp4" "report.json" "object" Demo.shelf))
  = all_reads 4.
Proof.
  destruct (returning_run_reads_each_frame_once Demo.shelf "clip.mp4"
              "report.json" Demo.clip eq_refl) as [Hshake Hdetect].
  split.
  - apply (Hshake Demo.half
             (events_of
                (fst (detect_camera_shake "clip.mp4" "report.json" Demo.half
                        Demo.shelf)))).
    reflexivity.
  - apply (Hdetect "object" "/cv2/data/haarcascade_fullbody.xml"
             (events_of
                (fst (detect_faces_objects "clip.mp4" "report.json" "object"
                        Demo.shelf)))); reflexivity.
Defined.

Lemma quiet_video_reports_zero_events_witness :
  let run :=
    detect_camera_shake "frozen.mp4" "report.json" Demo.half Demo.shelf in
  PyFloat.is_zero (video_fps Demo.frozen) = true ∧
  fst run = Returned [] ∧
  released Demo.shelf (snd run) ∧
  fs (snd run) !! "report.json" =
    Some (JsonFile (JDict [("source_video", JString "frozen.mp4");
                           ("shake_events", JList []);
                           ("total_events", JInt 0)])).
Proof.
  intros run. split; [reflexivity|].
  apply (quiet_video_reports_zero_events Demo.shelf "frozen.mp4"
           "report.json" Demo.half Demo.frozen).
  - reflexivity.
  - discriminate.
  - apply shelf_unlocked. discriminate.
  - intros i prev cur Hprev Hcur.
    destruct i as [|[|[|i]]]; simpl in Hprev, Hcur; try discriminate Hcur;
      injection Hprev as <-; injection Hcur as <-; reflexivity.
Defined.

Lemma boxless_video_reports_zero_detections_witness :
  let run :=
    detect_faces_objects "blank.mp4" "report.json" "face" Demo.shelf in
  fst run = Returned [] ∧
  released Demo.shelf (snd run) ∧
  fs (snd run) !! "report.json" =
    Some (JsonFile (JDict [("source_video", JString "blank.mp4");
                           ("detection_type", JString "face");
                           ("detections", JList []);
                           ("total_frames_with_detections", JInt 0)])).
Proof.
  apply (boxless_video_reports_zero_detections Demo.shelf "blank.mp4"
           "report.json" "face"
           "/cv2/data/haarcascade_frontalface_default.xml" Demo.blank).
  - reflexivity.
  - reflexivity.
  - apply shelf_unlocked. discriminate.
  - intros img Hin. apply elem_of_nil in Hin. destruct Hin.
Defined.

Lemma division_failure_leaves_capture_open_witness :
  let run :=
    detect_camera_shake "stalled.mp4" "report.json" Demo.half Demo.shelf in
  CapOpen "stalled.mp4" true ∈ new_log Demo.shelf (snd run) ∧
  ¬ released Demo.shelf (snd run) ∧
  ¬ report_attempted Demo.shelf (snd run) ∧
  fs (snd run) = fs Demo.shelf.
Proof.
  apply (proj1 (division_failure_leaves_capture_open Demo.shelf "stalled.mp4"
                  "report.json") Demo.half).
  reflexivity.
Defined.

Lemma locked_report_path_fails_after_release_witness :
  let run :=
    detect_camera_shake "clip.mp4" "sealed.json" Demo.half Demo.shelf in
  fst run = Raised OSError ∧
  new_log Demo.shelf (snd run) =
    CapOpen "clip.mp4" true :: all_reads 4
      ++ [CapRelease; FileWriteFailed "sealed.json"] ∧
  fs (snd run) = fs Demo.shelf.
Proof.
  apply (proj1 (locked_report_path_fails_after_release Demo.shelf "clip.mp4"
                  "sealed.json" Demo.clip eq_refl eq_refl shelf_sealed)
           Demo.half).
  discriminate.
Defined.

Lemma only_the_report_path_changes_witness :
  fs (snd (detect_camera_shake "clip.mp4" "report.json" Demo.half
             Demo.shelf)) !! "notes.json"
  = fs Demo.shelf !! "notes.json".
Proof.
  apply (proj1 (only_the_report_path_changes Demo.shelf "clip.mp4"
                  "report.json" "notes.json" ltac:(discriminate))).
Defined.

Lemma report_over_input_blocks_rerun_witness :
  let first :=
    detect_camera_shake "clip.mp4" "clip.mp4" Demo.half Demo.shelf in
  let second :=
    detect_camera_shake "clip.mp4" "clip.mp4" Demo.half (snd first) in
  fst second = Returned [] ∧
  new_log (snd first) (snd second) =
    [CapOpen "clip.mp4" false;
     Print ("Error: Could not open video " +:+ "clip.mp4")].
Proof.
  intros first second.
  destruct (report_over_input_blocks_rerun Demo.shelf "clip.mp4" Demo.half
              Demo.clip) as (_ & _ & Hsecond & Hlog).
  - reflexivity.
  - discriminate.
  - reflexivity.
  - apply shelf_unlocked. discriminate.
  - split; [exact Hsecond|exact Hlog].
Defined.

Lemma unreachable_threshold_gives_no_events_witness :
  let run :=
    detect_camera_shake "stalled.mp4" "report.json" S754_nan Demo.shelf in
  events_of (fst run) = [] ∧ fst run ≠ Raised ZeroDivisionError.
Proof.
  apply (unreachable_threshold_gives_no_events Demo.shelf "stalled.mp4"
           "report.json" S754_nan).
  by left.
Defined.

Lemma written_report_is_stored_and_labelled_witness :
  let run :=
    detect_faces_objects "clip.mp4" "report.json" "object" Demo.shelf in
  let doc := detection_report "clip.mp4" "object" (events_of (fst run)) in
  fs (snd run) !! "report.json" = Some (JsonFile doc) ∧
  json_get "source_video" doc = Some (JString "clip.mp4") ∧
  json_get "detection_type" doc = Some (JString "object").
Proof.
  intros run doc.
  destruct (proj2 (written_report_is_stored_and_labelled Demo.shelf
                     "clip.mp4" "report.json") "object" "report.json" doc)
    as (_ & Hfile & Hsource & Htype & _).
  - vm_compute. repeat constructor.
  - split; [exact Hfile|]. split; [exact Hsource|exact Htype].
Defined.

Lemma detection_rerun_identical_witness :
  let first :=
    detect_faces_objects "clip.mp4" "report.json" "face" Demo.shelf in
  let second :=
    detect_faces_objects "clip.mp4" "report.json" "face" (snd first) in
  fst second = fst first ∧
  fs (snd second) !! "report.json" = fs (snd first) !! "report.json".
Proof.
  intros first second.
  apply (detection_rerun_identical Demo.shelf "clip.mp4" "report.json"
           "face").
  apply detect_keeps_other_paths. discriminate.
Defined.

Lemma main_missing_input_exits_witness :
  let args :=
    {| video := "absent.mp4"; mode := face; output := None;
       threshold := Demo.half |} in
  let run := main args Demo.shelf in
  fst run = Raised (SystemExit 1) ∧
  new_log Demo.shelf (snd run) =
    [Print ("Error: Video file '" +:+ "absent.mp4" +:+ "' not found")] ∧
  fs (snd run) = fs Demo.shelf.
Proof.
  intros args.
  apply (main_missing_input_exits Demo.shelf args).
  reflexivity.
Defined.

Lemma main_ends_as_the_operation_witness :
  let args :=
    {| video := "stalled.mp4"; mode := shake; output := Some "";
       threshold := Demo.half |} in
  fst (main args Demo.shelf) =
    forget
      (fst (detect_camera_shake "stalled.mp4"
              "stalled.mp4_shake_20240101_120000.json" Demo.half
              Demo.shelf)).
Proof.
  intros args.
  apply (main_ends_as_the_operation Demo.shelf args).
  by eexists.
Defined.

Lemma main_reports_saved_without_writing_witness :
  let args :=
    {| video := "garbled.mp4"; mode := object; output := Some "out.json";
       threshold := Demo.half |} in
  let run := main args Demo.shelf in
  fst run = Returned tt ∧
  fs (snd run) = fs Demo.shelf ∧
  ¬ report_attempted Demo.shelf (snd run) ∧
  new_log Demo.shelf (snd run) =
    [Print "Analyzing video: garbled.mp4";
     Print "Mode: object";
     Print "Output will be saved to: out.json";
     CapOpen "garbled.mp4" false;
     Print "Error: Could not open video garbled.mp4";
     Print "Analysis complete. Found objects in 0 frames.";
     Print "Results saved to: out.json"].
Proof.
  intros args.
  apply (main_reports_saved_without_writing Demo.shelf args).
  - by eexists.
  - reflexivity.
Defined.

Lemma main_changes_only_the_report_path_witness :
  let args :=
    {| video := "clip.mp4"; mode := shake; output := Some "notes.json";
       threshold := Demo.half |} in
  fs (snd (main args Demo.shelf)) !! "clip.mp4"
  = fs Demo.shelf !! "clip.mp4".
Proof.
  intros args.
  apply (main_changes_only_the_report_path Demo.shelf args "clip.mp4").
  discriminate.
Defined.

Lemma main_report_matches_mode_witness :
  let args :=
    {| video := "clip.mp4"; mode := face; output := None;
       threshold := Demo.half |} in
  let doc :=
    detection_report "clip.mp4" "face"
      (events_of
         (fst (detect_faces_objects "clip.mp4"
                 "clip.mp4_face_20240101_120000.json" "face" Demo.shelf))) in
  "clip.mp4_face_20240101_120000.json" = chosen_output args (now Demo.shelf) ∧
  json_get "source_video" doc = Some (JString "clip.mp4") ∧
  json_get "detection_type" doc = Some (JString "face").
Proof.
  intros args doc.
  apply (main_report_matches_mode Demo.shelf args
           "clip.mp4_face_20240101_120000.json" doc).
  vm_compute. repeat constructor.
Defined.

(** * The build script *)

Section BuildProperties.

Context `{Build.Host}.

Lemma exists_some (size : Z) : bool_decide (is_Some (Some size)) = true.
Proof. by apply bool_decide_eq_true_2. Qed.

Lemma exists_none : bool_decide (is_Some (@None Z)) = false.
Proof. apply bool_decide_eq_false_2. by intros [? ?]. Qed.

(** Every way through the script, one goal per way.  The lookups in the
    tree are cased on before anything is computed. *)
Ltac build_reduce :=
  cbn beta iota delta [fst snd Build.tree Build.system Build.trace
                         Build.note];
  rewrite ?exists_some, ?exists_none;
  cbn beta iota delta [fst snd Build.tree Build.system Build.trace
                         Build.note].

Ltac build_step :=
  match goal with
  | |- context [@lookup _ _ (gmap string Z) _ ?p ?t] =>
      first [ is_var t | match t with Build.tree ?s0 => is_var s0 end ];
      destruct (@lookup _ _ (gmap string Z) _ p t) eqn:?
  | |- context [Build.remove_tree ?p ?t] =>
      destruct (Build.remove_tree p t) eqn:?
  | |- context [Build.run_process ?c ?t] =>
      destruct (Build.run_process c t) as [[? ?]|] eqn:?
  | |- context [Z.eqb ?c 0] => destruct (Z.eqb c 0) eqn:?
  | |- context [String.eqb ?a ?b] => destruct (String.eqb a b) eqn:?
  end.

Ltac build_paths :=
  unfold Build.main, Build.verdict, Build.and_then, Build.say,
    Build.path_exists, Build.platform_system, Build.rmtree, Build.run,
    Build.getsize, Build.pure, Build.output_file;
  build_reduce; repeat (build_step; build_reduce); simplify_eq.

Ltac new_trace_normal :=
  unfold Build.new_trace; build_reduce;
  rewrite <- ?app_assoc; rewrite drop_app_length;
  cbn beta iota delta [app Build.commands omap list_omap last].

Ltac os_names :=
  repeat match goal with
    | Heq : String.eqb _ _ = true |- _ => apply String.eqb_eq in Heq
    | Heq : String.eqb _ _ = false |- _ => apply String.eqb_neq in Heq
    end.

(** X19. Whatever the processes do, the commands the build script starts
    are a beginning of the fixed sequence: pip for PyInstaller, pip for
    the requirements, PyInstaller; and PyInstaller is only started on
    Windows, Darwin or Linux. *)
Theorem build_commands_in_order (s : Build.state) :
  let started := Build.commands (Build.new_trace s (snd (Build.main s))) in
  started `prefix_of`
    [Build.pip_pyinstaller; Build.pip_requirements; Build.pyinstaller] ∧
  (Build.pyinstaller ∈ started -> Build.supported (Build.system s)).
Proof.
  intros started. subst started. unfold Build.supported. split.
  - build_paths; new_trace_normal; by eexists.
  - build_paths; new_trace_normal; os_names; intros Hin;
      try tauto; exfalso;
      repeat (apply elem_of_cons in Hin as [Hin|Hin]; [discriminate Hin|]);
      by apply elem_of_nil in Hin.
Qed.

(** X20. When the build script ends normally, both pip commands were
    started; on Windows, Darwin and Linux PyInstaller was started after
    them, and on any other platform nothing more was started and the last
    message names the unsupported platform. *)
Theorem build_done_ran_everything (s : Build.state) :
  fst (Build.main s) = Build.Done tt ->
  let effects := Build.new_trace s (snd (Build.main s)) in
  (Build.supported (Build.system s) ->
   Build.commands effects =
     [Build.pip_pyinstaller; Build.pip_requirements; Build.pyinstaller]) ∧
  (¬ Build.supported (Build.system s) ->
   Build.commands effects = [Build.pip_pyinstaller; Build.pip_requirements] ∧
   last effects =
     Some (Build.Say (Build.text_unsupported +:+ Build.system s))).
Proof.
  unfold Build.supported.
  build_paths; intros Hdone; try discriminate Hdone;
    new_trace_normal; os_names; split; intros Hos;
    try tauto; try (split; reflexivity); try reflexivity.
Qed.

(** X21. When the build script fails, the failure comes from the last
    thing it did: a command that returned a nonzero status or could not be
    started, or the removal of [dist] or [build]; nothing is started or
    printed after it. *)
Theorem build_failure_is_last_effect (s : Build.state) (e : Build.error) :
  fst (Build.main s) = Build.Failed e ->
  let effects := Build.new_trace s (snd (Build.main s)) in
  match e with
  | Build.CalledProcessError cmd returncode =>
      returncode ≠ 0 ∧ last effects = Some (Build.Run cmd)
  | Build.CommandNotFound cmd => last effects = Some (Build.Run cmd)
  | Build.PathError path =>
      last effects = Some (Build.Rmtree path) ∧
      (path = "dist" ∨ path = "build")
  end.
Proof.
  build_paths; intros Hfail; try discriminate Hfail;
    injection Hfail as <-; new_trace_normal;
    repeat match goal with
      | Hz : Z.eqb _ 0 = false |- _ => apply Z.eqb_neq in Hz
      end;
    repeat split; try done; try (by left); try (by right).
Qed.

(** X22. When the build script ends normally on a supported platform, its
    last effects are the PyInstaller run and the verdict read from the
    tree that run left: if the executable of the platform
    ([dist/video_analyzer.exe] on Windows, [dist/video_analyzer]
    elsewhere) exists, the success message, its size in MiB (bytes divided
    by 1024 * 1024) and the usage lines; if it does not, the failure
    message alone, and the script still ends normally. *)
Theorem build_verdict_follows_executable (s : Build.state) :
  fst (Build.main s) = Build.Done tt ->
  Build.supported (Build.system s) ->
  let final := snd (Build.main s) in
  let out := Build.output_file (Build.system s) in
  (Build.Run Build.pyinstaller ::
     match Build.tree final !! out with
     | Some size =>
         [Build.Say (Build.text_success +:+ out);
          Build.Say (Build.text_size
                       +:+ Build.format_2f
                             (PyFloat.div (PyFloat.of_int size)
                                (PyFloat.of_int (1024 * 1024)))
                       +:+ Build.text_mb);
          Build.Say Build.text_usage;
          Build.Say (out +:+ Build.text_arguments)]
     | None => [Build.Say Build.text_failed]
     end)
    `suffix_of` Build.new_trace s final.
Proof.
  unfold Build.supported.
  build_paths; intros Hdone; try discriminate Hdone; intros Hos;
    os_names; try (exfalso; tauto);
    new_trace_normal;
    repeat first [ reflexivity | apply suffix_cons_r ].
Qed.

End BuildProperties.

Example build_on_linux :
  let run := @Build.main Build.demo_host (Build.fresh "Linux") in
  fst run = Build.Done tt ∧
  Build.new_trace (Build.fresh "Linux") (snd run) =
    [Build.Say "Видео Анализатор - Скрипт сборки";
     Build.Say "--------------------------------";
     Build.Say "Удаление предыдущих сборок...";
     Build.Rmtree "dist";
     Build.Say "Обнаружена платформа: Linux";
     Build.Say "Установка PyInstaller...";
     Build.Run ["pip"; "install"; "pyinstaller"];
     Build.Say "Установка зависимостей...";
     Build.Run ["pip"; "install"; "-r"; "requirements.txt"];
     Build.Say "Сборка для Linux...";
     Build.Run ["pyinstaller"; "--onefile"; "--name=video_analyzer";
                "main.py"];
     Build.Say "Сборка успешно завершена! Исполняемый файл: dist/video_analyzer";
     Build.Say "Размер файла: 3.00 МБ";
     Build.Say (Build.newline +:+ "Как использовать:");
     Build.Say
       "dist/video_analyzer video.mp4 --mode shake --output results.json"].
Proof. split; reflexivity. Qed.

Lemma build_commands_in_order_witness :
  let started :=
    Build.commands
      (Build.new_trace (Build.fresh "Linux")
         (snd (@Build.main Build.demo_host (Build.fresh "Linux")))) in
  Build.pyinstaller ∈ started ∧ Build.supported "Linux".
Proof.
  intros started. split.
  - vm_compute. repeat constructor.
  - apply (proj2 (@build_commands_in_order Build.demo_host
                    (Build.fresh "Linux"))).
    vm_compute. repeat constructor.
Defined.

Lemma build_done_ran_everything_witness :
  let effects :=
    Build.new_trace (Build.fresh "FreeBSD")
      (snd (@Build.main Build.demo_host (Build.fresh "FreeBSD"))) in
  Build.commands effects = [Build.pip_pyinstaller; Build.pip_requirements] ∧
  last effects = Some (Build.Say "Неподдерживаемая платформа: FreeBSD").
Proof.
  apply (proj2 (@build_done_ran_everything Build.demo_host
                  (Build.fresh "FreeBSD") eq_refl)).
  intros [Hos|[Hos|Hos]]; discriminate Hos.
Defined.

Lemma build_failure_is_last_effect_witness :
  let effects :=
    Build.new_trace (Build.fresh "Linux")
      (snd (@Build.main Build.bare_host (Build.fresh "Linux"))) in
  1 ≠ 0 ∧ last effects = Some (Build.Run Build.pip_pyinstaller).
Proof.
  apply (@build_failure_is_last_effect Build.bare_host (Build.fresh "Linux")
           (Build.CalledProcessError Build.pip_pyinstaller 1)).
  reflexivity.
Defined.

(** On Windows the demo host leaves no [.exe]: the script ends normally
    with the failure message. *)
Lemma build_verdict_follows_executable_witness :
  [Build.Run Build.pyinstaller; Build.Say "Сборка не удалась!"]
    `suffix_of`
    Build.new_trace (Build.fresh "Windows")
      (snd (@Build.main Build.demo_host (Build.fresh "Windows"))).
Proof.
  apply (@build_verdict_follows_executable Build.demo_host
           (Build.fresh "Windows")).
  - reflexivity.
  - left. reflexivity.
Defined.
